(** * Protein Store API: a shallow embedding of [main.py] and [schemas.py]

    The handlers of [main.py] are embedded as computations over the global
    database handle [db]; the pydantic models of [schemas.py] as field tables
    interpreted by a validator; [bson.ObjectId] as a 96-bit number with its
    24-digit hexadecimal string form; the [$regex] operator of the query
    language as a small matcher over byte strings. *)

From Stdlib Require Import ZArith NArith QArith Qround List String Ascii Bool Lia.
From stdpp Require Import base option list strings gmap.

Set Warnings "-register-all".
Local Open Scope string_scope.
Local Open Scope Z_scope.

(** ** Python values *)

(** The values that travel through the handlers: JSON data, plus the
    store's native identifier.  A Python [float] is kept as the rational it
    denotes; NaN and the infinities are not JSON and are left out. *)
Inductive value : Type :=
  | VNone
  | VBool (b : bool)
  | VInt (n : Z)
  | VFloat (x : Q)
  | VStr (s : string)
  | VList (l : list value)
  | VDict (d : list (string * value))
  | VOid (oid : N).

(** A Python [dict] with string keys. *)
Abbreviation pydict := (gmap string value).

(** Python truthiness ([if x:]). *)
Definition truthy (v : value) : bool :=
  match v with
  | VNone => false
  | VBool b => b
  | VInt n => negb (n =? 0)
  | VFloat x => negb (Qeq_bool x 0)
  | VStr s => negb (String.eqb s "")
  | VList l => match l with [] => false | _ => true end
  | VDict d => match d with [] => false | _ => true end
  | VOid _ => true
  end.

(** Equality of two values as the store compares them: numbers by their
    numeric value, everything else structurally. *)
Fixpoint value_eqb (a b : value) {struct a} : bool :=
  match a, b with
  | VNone, VNone => true
  | VBool x, VBool y => Bool.eqb x y
  | VInt x, VInt y => x =? y
  | VInt x, VFloat y => Qeq_bool (inject_Z x) y
  | VFloat x, VInt y => Qeq_bool x (inject_Z y)
  | VFloat x, VFloat y => Qeq_bool x y
  | VStr x, VStr y => String.eqb x y
  | VOid x, VOid y => N.eqb x y
  | VList l1, VList l2 =>
      (fix go (l1 l2 : list value) {struct l1} : bool :=
         match l1, l2 with
         | [], [] => true
         | x :: l1', y :: l2' => value_eqb x y && go l1' l2'
         | _, _ => false
         end) l1 l2
  | VDict d1, VDict d2 =>
      (fix go (d1 d2 : list (string * value)) {struct d1} : bool :=
         match d1, d2 with
         | [], [] => true
         | (k1, x) :: d1', (k2, y) :: d2' =>
             String.eqb k1 k2 && value_eqb x y && go d1' d2'
         | _, _ => false
         end) d1 d2
  | _, _ => false
  end.

(** ** bson.ObjectId

    The native identifier is a 12-byte value, kept here as the number below
    [2^96] that the bytes spell big-endian.  [str(oid)] is its 24 lowercase
    hexadecimal digits.  [ObjectId(s)] raises [InvalidId] unless [s] has 24
    characters and [bytes.fromhex(s)] decodes it.  [bytes.fromhex] reads
    bytes of two hexadecimal digits and skips ASCII whitespace between
    them, so a string of 24 characters, some of them whitespace, can decode
    to fewer than 12 bytes: what the store does with such an identifier is
    not described here. *)

Definition hex_digit (n : N) : ascii :=
  if (n <? 10)%N then ascii_of_N (48 + n) else ascii_of_N (87 + n).

Definition hex_value (c : ascii) : option N :=
  let n := N_of_ascii c in
  if ((48 <=? n) && (n <=? 57))%N then Some (n - 48)%N
  else if ((97 <=? n) && (n <=? 102))%N then Some (n - 87)%N
  else if ((65 <=? n) && (n <=? 70))%N then Some (n - 55)%N
  else None.

Fixpoint hexlify (digits : nat) (n : N) : list ascii :=
  match digits with
  | O => []
  | S d => hexlify d (n / 16)%N ++ [hex_digit (n mod 16)%N]
  end.

Fixpoint unhexlify_from (acc : N) (l : list ascii) : option N :=
  match l with
  | [] => Some acc
  | c :: l' =>
      match hex_value c with
      | Some v => unhexlify_from (acc * 16 + v)%N l'
      | None => None
      end
  end.

Definition unhexlify (l : list ascii) : option N := unhexlify_from 0%N l.

Definition is_hex (c : ascii) : bool :=
  match hex_value c with
  | Some _ => true
  | None => false
  end.

(** The whitespace of ASCII: the space and the characters 9 to 13. *)
Definition is_space (c : ascii) : bool :=
  let n := N_of_ascii c in ((n =? 32) || ((9 <=? n) && (n <=? 13)))%N.

(** [bytes.fromhex]: [top] is the first digit of the byte being read. *)
Fixpoint fromhex_from (top : option N) (l : list ascii) : option (list N) :=
  match l with
  | [] =>
      match top with
      | None => Some []
      | Some _ => None
      end
  | c :: l' =>
      match top with
      | None =>
          if is_space c then fromhex_from None l'
          else
            match hex_value c with
            | Some hi => fromhex_from (Some hi) l'
            | None => None
            end
      | Some hi =>
          match hex_value c with
          | Some lo =>
              match fromhex_from None l' with
              | Some bytes => Some ((hi * 16 + lo)%N :: bytes)
              | None => None
              end
          | None => None
          end
      end
  end.

Definition fromhex (l : list ascii) : option (list N) := fromhex_from None l.

Definition ObjectId_str (oid : N) : string :=
  string_of_list_ascii (hexlify 24 oid).

(** ** Exceptions and outcomes *)

(** The exceptions that the handlers raise or catch.  [detail=str(e)] is
    kept symbolically as [Str e], so that nothing depends on how a library
    formats its messages. *)
Inductive error_type : Type :=
  | missing
  | type_error
  | greater_than_equal.

(** One entry of a validation report: the field, the index of the item
    for an error inside a list, and what is wrong. *)
Record error : Type := {
  field_of : string;
  item_of : option nat;
  kind_of : error_type
}.

Inductive exn : Type :=
  | HTTPException (status_code : Z) (detail : detail)
  | RequestValidationError (errors : list error)
  | InvalidId (oid : string)
  | KeyError (key : string)
  | StorageUnavailable
  | ValidationError
with detail : Type :=
  | Msg (s : string)
  | Str (e : exn).

(** What running a piece of the program yields: a value, a raised
    exception, or [Unmodelled] when the run leaves the part of the libraries
    that this development describes (see [ObjectId], [py_str] and
    [re_compile]). *)
Inductive outcome (A : Type) : Type :=
  | Ok (a : A)
  | Raise (e : exn)
  | Unmodelled.
Arguments Ok {A} a.
Arguments Raise {A} e.
Arguments Unmodelled {A}.

Definition ObjectId (s : string) : outcome N :=
  if (String.length s =? 24)%nat then
    match fromhex (list_ascii_of_string s) with
    | Some _ =>
        match unhexlify (list_ascii_of_string s) with
        | Some n => Ok n
        | None => Unmodelled
        end
    | None => Raise (InvalidId s)
    end
  else Raise (InvalidId s).

(** ** The [$regex] operator

    The store evaluates [{"$regex": p, "$options": o}] with a regular
    expression engine.  The fragment described here: a pattern made of
    ordinary ASCII characters, each matching itself, and of [.], matching
    any character but a line feed; no option, or the option [i] (caseless,
    folding the letters A to Z).  A pattern with any other metacharacter,
    with a character outside ASCII (which the engine folds by rules of its
    own) or with the character 0 (which a pattern cannot hold), or other
    options, is outside the fragment.  Strings are byte strings. *)

Inductive ratom : Type :=
  | RLit (c : ascii)
  | RDot.

Definition is_metachar (c : ascii) : bool :=
  existsb (Ascii.eqb c) (list_ascii_of_string "\^$.[]|()?*+{}").

(** The characters 1 to 127. *)
Definition is_ascii (c : ascii) : bool :=
  let n := N_of_ascii c in ((0 <? n) && (n <? 128))%N.

Fixpoint re_parse (p : list ascii) : option (list ratom) :=
  match p with
  | [] => Some []
  | c :: p' =>
      match re_parse p' with
      | Some re =>
          if Ascii.eqb c "." then Some (RDot :: re)
          else if is_metachar c || negb (is_ascii c) then None
          else Some (RLit c :: re)
      | None => None
      end
  end.

Definition re_options (o : string) : option bool :=
  if String.eqb o "i" then Some true
  else if String.eqb o "" then Some false
  else None.

Definition is_upper (c : ascii) : bool :=
  let n := N_of_ascii c in ((65 <=? n) && (n <=? 90))%N.

Definition lower (c : ascii) : ascii :=
  if is_upper c then ascii_of_N (N_of_ascii c + 32) else c.

Definition char_eqb (caseless : bool) (a b : ascii) : bool :=
  if caseless then Ascii.eqb (lower a) (lower b) else Ascii.eqb a b.

Definition atom_matches (caseless : bool) (a : ratom) (c : ascii) : bool :=
  match a with
  | RLit x => char_eqb caseless x c
  | RDot => negb (Ascii.eqb c "010")
  end.

(** [match_here re s]: the pattern matches a prefix of [s]. *)
Fixpoint match_here (caseless : bool) (re : list ratom) (s : list ascii) : bool :=
  match re, s with
  | [], _ => true
  | a :: re', c :: s' => atom_matches caseless a c && match_here caseless re' s'
  | _ :: _, [] => false
  end.

(** [re_search re s]: the pattern matches somewhere in [s] (unanchored). *)
Fixpoint re_search (caseless : bool) (re : list ratom) (s : list ascii) : bool :=
  match_here caseless re s
  || match s with
     | [] => false
     | _ :: s' => re_search caseless re s'
     end.

(** A compiled regular expression: the option and the parsed pattern. *)
Definition re_compile (pattern options : string) : option (bool * list ratom) :=
  match re_options options, re_parse (list_ascii_of_string pattern) with
  | Some caseless, Some re => Some (caseless, re)
  | _, _ => None
  end.

Definition re_test (cre : bool * list ratom) (s : string) : bool :=
  re_search (fst cre) (snd cre) (list_ascii_of_string s).

(** ** Query filters

    [filter_dict] is a dict in the store's query language.  The shapes the
    handlers build: [{name: v}] (exact match), [{name: {"$regex": p,
    "$options": o}}] and [{"$or": [f1, f2, ...]}].  The keys of one dict are
    distinct and kept in insertion order; all its clauses must hold. *)

Inductive fcond : Type :=
  | Eq (v : value)
  | Regex (pattern options : string).

Inductive clause : Type :=
  | Field (name : string) (c : fcond)
  | Or (alts : list (list clause)).

Abbreviation filter_t := (list clause).

(** [{name: v}] on a document: the field equals [v], or is an array with
    an element equal to [v]; a document without the field matches only
    [None]. *)
Definition field_eq (v : value) (fv : option value) : bool :=
  match fv with
  | None => value_eqb v VNone
  | Some (VList l) => value_eqb v (VList l) || existsb (value_eqb v) l
  | Some x => value_eqb v x
  end.

(** [{name: {"$regex": ...}}] on a document: the field is a string that the
    expression matches, or an array with such a string. *)
Definition field_regex (cre : bool * list ratom) (fv : option value) : bool :=
  match fv with
  | Some (VStr s) => re_test cre s
  | Some (VList l) =>
      existsb (fun x => match x with VStr s => re_test cre s | _ => false end) l
  | _ => false
  end.

Definition compile_fcond (name : string) (c : fcond) : option (pydict -> bool) :=
  match c with
  | Eq v => Some (fun d => field_eq v (d !! name))
  | Regex p o =>
      match re_compile p o with
      | Some cre => Some (fun d => field_regex cre (d !! name))
      | None => None
      end
  end.

Definition pred_and (p q : option (pydict -> bool)) : option (pydict -> bool) :=
  match p, q with
  | Some p, Some q => Some (fun d => p d && q d)
  | _, _ => None
  end.

Definition pred_or (p q : option (pydict -> bool)) : option (pydict -> bool) :=
  match p, q with
  | Some p, Some q => Some (fun d => p d || q d)
  | _, _ => None
  end.

(** The predicate a clause denotes; [None] when one of its expressions is
    outside the fragment of [re_compile] (or [$or] has no alternative,
    which the store refuses). *)
Fixpoint compile_clause (c : clause) : option (pydict -> bool) :=
  match c with
  | Field name fc => compile_fcond name fc
  | Or alts =>
      match alts with
      | [] => None
      | _ =>
          (fix disj (alts : list (list clause)) : option (pydict -> bool) :=
             match alts with
             | [] => Some (fun _ => false)
             | f :: alts' =>
                 pred_or
                   ((fix conj (f : list clause) : option (pydict -> bool) :=
                       match f with
                       | [] => Some (fun _ => true)
                       | c :: f' => pred_and (compile_clause c) (conj f')
                       end) f)
                   (disj alts')
             end) alts
      end
  end.

(** The clauses of a filter combine with AND; the empty filter matches
    every document. *)
Fixpoint compile_filter (f : filter_t) : option (pydict -> bool) :=
  match f with
  | [] => Some (fun _ => true)
  | c :: f' => pred_and (compile_clause c) (compile_filter f')
  end.

(** ** The database handle and the handler monad *)

(** The state behind [database.db]: the documents of each collection in
    insertion order, and the next identifier the store will assign. *)
Record database : Type := {
  collections : gmap string (list pydict);
  next_oid : N
}.

Definition collection (st : database) (name : string) : list pydict :=
  default [] (collections st !! name).

(** A computation reads and updates the global [db] ([None] when there is
    no connection). Writes made before an exception stay. *)
Definition M (A : Type) : Type := option database -> outcome A * option database.

Definition ret {A} (a : A) : M A := fun db => (Ok a, db).
Definition raise {A} (e : exn) : M A := fun db => (Raise e, db).

Definition bind {A B} (m : M A) (k : A -> M B) : M B :=
  fun db =>
    match m db with
    | (Ok a, db') => k a db'
    | (Raise e, db') => (Raise e, db')
    | (Unmodelled, db') => (Unmodelled, db')
    end.

(** [try: m  except Exception as e: h e]. *)
Definition try_except {A} (m : M A) (h : exn -> M A) : M A :=
  fun db =>
    match m db with
    | (Raise e, db') => h e db'
    | r => r
    end.

Definition lift {A} (o : outcome A) : M A := fun db => (o, db).

Notation "x <- m ;; k" := (bind m (fun x => k))
  (at level 100, m at next level, right associativity).

(** [for x in l: f x], collecting the results. *)
Fixpoint for_each {A B} (f : A -> M B) (l : list A) : M (list B) :=
  match l with
  | [] => ret []
  | x :: l' => y <- f x ;; ys <- for_each f l' ;; ret (y :: ys)
  end.

(** ** database.py *)

(** Modelled from the spec: [database.get_documents], which is not among
    the sources.  It fails with [StorageUnavailable] without a connection;
    otherwise it applies the filter to the collection and returns, in
    insertion order, at most [limit] of the matching documents (an empty
    list when nothing matches).  The documents returned are copies. *)
Definition get_documents (collection_name : string) (filter_dict : filter_t)
    (limit : Z) : M (list pydict) :=
  fun db =>
    match db with
    | None => (Raise StorageUnavailable, db)
    | Some st =>
        match compile_filter filter_dict with
        | Some p =>
            (Ok (take (Z.to_nat limit) (List.filter p (collection st collection_name))), db)
        | None => (Unmodelled, db)
        end
    end.

(** The store's insertion: the document gets the next identifier as its
    [_id] and goes to the end of its collection. *)
Definition insert_one (st : database) (collection_name : string) (data : pydict) : database :=
  {| collections :=
       <[collection_name :=
           (collection st collection_name ++ [<["_id" := VOid (next_oid st)]> data])%list]>
         (collections st);
     next_oid := N.succ (next_oid st) |}.

Definition has_identifier_field (data : pydict) : bool :=
  match data !! "_id", data !! "id" with
  | None, None => false
  | _, _ => true
  end.

(** Modelled from the spec: [database.create_document], which is not among
    the sources.  It fails with [StorageUnavailable] without a connection
    and with [ValidationError] when the payload carries an identifier
    field; otherwise it persists the field-value mapping under a freshly
    assigned identifier and returns the identifier's string form. *)
Definition create_document (collection_name : string) (data : pydict) : M string :=
  fun db =>
    match db with
    | None => (Raise StorageUnavailable, db)
    | Some st =>
        if has_identifier_field data then (Raise ValidationError, db)
        else
          (Ok (ObjectId_str (next_oid st)), Some (insert_one st collection_name data))
    end.

(** ** schemas.py: the Product model *)

Record Product : Type := {
  title : string;
  description : option string;
  price : Q;
  category : string;
  in_stock : bool;
  image : option string;
  protein_grams : option Z;
  calories : option Z;
  tags : option (list string)
}.

Definition opt_value {A} (f : A -> value) (o : option A) : value :=
  match o with
  | Some a => f a
  | None => VNone
  end.

(** [product.model_dump()]: the field-value mapping of a model instance. *)
Definition model_dump (p : Product) : pydict :=
  <["title" := VStr (title p)]>
  (<["description" := opt_value VStr (description p)]>
  (<["price" := VFloat (price p)]>
  (<["category" := VStr (category p)]>
  (<["in_stock" := VBool (in_stock p)]>
  (<["image" := opt_value VStr (image p)]>
  (<["protein_grams" := opt_value VInt (protein_grams p)]>
  (<["calories" := opt_value VInt (calories p)]>
  (<["tags" := opt_value (fun l => VList (map VStr l)) (tags p)]> ∅)))))))).

(** pydantic's conversion table: how an input value is turned into a
    value of the annotated type, [None] when the input is not acceptable
    for it.  The table depends on pydantic's version and mode, so the
    validator takes it as a parameter. *)
Record Conversions : Type := {
  to_str : value -> option string;
  to_float : value -> option Q;
  to_int : value -> option Z;
  to_bool : value -> option bool;
  to_list : value -> option (list value)
}.

(** The table that accepts exactly the values of the annotated type (and
    an [int] where a [float] is expected). *)
Definition strict : Conversions := {|
  to_str v := match v with VStr s => Some s | _ => None end;
  to_float v :=
    match v with VFloat x => Some x | VInt n => Some (inject_Z n) | _ => None end;
  to_int v := match v with VInt n => Some n | _ => None end;
  to_bool v := match v with VBool b => Some b | _ => None end;
  to_list v := match v with VList l => Some l | _ => None end
|}.

(** What is wrong with the value of a field: at the value itself, or at
    the item of that index. *)
Abbreviation complaint := (option nat * error_type)%type.

(** A field of a scalar type. *)
Definition scalar {T} (conv : value -> option T) (v : value) : list complaint + T :=
  match conv v with
  | Some x => inr x
  | None => inl [(None, type_error)]
  end.

(** The items of a list, from index [i] on: every item that does not
    convert is reported. *)
Fixpoint items_from {T} (conv : value -> option T) (i : nat) (l : list value)
    : list complaint + list T :=
  match l with
  | [] => inr []
  | v :: l' =>
      match conv v, items_from conv (S i) l' with
      | Some x, inr xs => inr (x :: xs)
      | Some _, inl es => inl es
      | None, inr _ => inl [(Some i, type_error)]
      | None, inl es => inl ((Some i, type_error) :: es)
      end
  end.

(** [List[T]]. *)
Definition list_of {T} (to_list : value -> option (list value))
    (conv : value -> option T) (v : value) : list complaint + list T :=
  match to_list v with
  | Some l => items_from conv 0 l
  | None => inl [(None, type_error)]
  end.

(** [Optional[T]]: [None] is accepted as it is. *)
Definition optional {T} (conv : value -> list complaint + T) (v : value)
    : list complaint + option T :=
  match v with
  | VNone => inr None
  | _ => match conv v with inr x => inr (Some x) | inl es => inl es end
  end.

(** [ge=0] on a number, and on an optional number when it is there. *)
Definition ge_float (bound : Z) (x : Q) : bool := Qle_bool (inject_Z bound) x.
Definition ge_int (bound : Z) (n : Z) : bool := bound <=? n.
Definition ge_opt {T} (ge : T -> bool) (o : option T) : bool :=
  match o with
  | Some x => ge x
  | None => true
  end.
Definition unconstrained {T} (x : T) : bool := true.

(** One declared field: [name: T = Field(default, ge=...)].  [dflt = None]
    stands for the required marker [...]; a default is not validated. *)
Definition validate_field {T} (payload : pydict) (name : string)
    (conv : value -> list complaint + T) (dflt : option T) (constraint : T -> bool)
    : list error + T :=
  match payload !! name with
  | None =>
      match dflt with
      | Some d => inr d
      | None => inl [ {| field_of := name; item_of := None; kind_of := missing |} ]
      end
  | Some v =>
      match conv v with
      | inl es =>
          inl (map (fun e => {| field_of := name; item_of := fst e; kind_of := snd e |}) es)
      | inr x =>
          if constraint x then inr x
          else inl [ {| field_of := name; item_of := None; kind_of := greater_than_equal |} ]
      end
  end.

(** Validation goes through all the fields and gathers every error. *)
Definition gather {A B} (f : list error + (A -> B)) (x : list error + A) : list error + B :=
  match f, x with
  | inr f, inr x => inr (f x)
  | inl e1, inl e2 => inl (e1 ++ e2)%list
  | inl e1, inr _ => inl e1
  | inr _, inl e2 => inl e2
  end.

Notation "f <*> x" := (gather f x) (at level 61, left associativity).

(** [Product.model_validate(payload)].  Keys of the payload that are not
    declared fields are ignored (pydantic's default, [extra='ignore']). *)
Definition Product_validate (conv : Conversions) (payload : pydict) : list error + Product :=
  inr Build_Product
    <*> validate_field payload "title" (scalar (to_str conv)) None unconstrained
    <*> validate_field payload "description" (optional (scalar (to_str conv))) (Some None)
          unconstrained
    <*> validate_field payload "price" (scalar (to_float conv)) None (ge_float 0)
    <*> validate_field payload "category" (scalar (to_str conv)) None unconstrained
    <*> validate_field payload "in_stock" (scalar (to_bool conv)) (Some true) unconstrained
    <*> validate_field payload "image" (optional (scalar (to_str conv))) (Some None)
          unconstrained
    <*> validate_field payload "protein_grams" (optional (scalar (to_int conv))) (Some None)
          (ge_opt (ge_int 0))
    <*> validate_field payload "calories" (optional (scalar (to_int conv))) (Some None)
          (ge_opt (ge_int 0))
    <*> validate_field payload "tags" (optional (list_of (to_list conv) (to_str conv)))
          (Some None) unconstrained.

(** ** main.py: the handlers *)

(** [str(v)] for the values the handlers apply it to. *)
Definition py_str (v : value) : outcome string :=
  match v with
  | VOid oid => Ok (ObjectId_str oid)
  | VStr s => Ok s
  | _ => Unmodelled
  end.

(** [d.pop(key)]. *)
Definition dict_pop (d : pydict) (key : string) : outcome (value * pydict) :=
  match d !! key with
  | Some v => Ok (v, delete key d)
  | None => Raise (KeyError key)
  end.

(** [d["id"] = str(d.pop("_id"))]. *)
Definition convert_id (d : pydict) : M pydict :=
  vd <- lift (dict_pop d "_id") ;;
  s <- lift (py_str (fst vd)) ;;
  ret (<["id" := VStr s]> (snd vd)).

Definition internal_error {A} (e : exn) : M A :=
  raise (HTTPException 500 (Str e)).

Definition create_product (product : Product) : M pydict :=
  try_except
    (product_id <- create_document "product" (model_dump product) ;;
     ret {[ "id" := VStr product_id ]})
    internal_error.

(** [POST /api/products]: the framework validates the body against the
    handler's parameter type and answers 422 with the report when it
    fails; the handler runs on the validated model. *)
Definition POST_api_products (conv : Conversions) (body : pydict) : M pydict :=
  match Product_validate conv body with
  | inl errors => raise (RequestValidationError errors)
  | inr product => create_product product
  end.

(** Lines 80-88 of [list_products]: the filter built from the optional
    parameters. *)
Definition product_filter (category q : option string) : filter_t :=
  let filter_dict := [] in
  let filter_dict :=
    match category with
    | Some c =>
        if truthy (VStr c) then (filter_dict ++ [Field "category" (Eq (VStr c))])%list
        else filter_dict
    | None => filter_dict
    end in
  let filter_dict :=
    match q with
    | Some t =>
        if truthy (VStr t) then
          (filter_dict ++
             [Or [ [Field "title" (Regex t "i")];
                   [Field "description" (Regex t "i")];
                   [Field "tags" (Regex t "i")] ]])%list
        else filter_dict
    | None => filter_dict
    end in
  filter_dict.

(** The response [{"items": docs}]. *)
Record Items : Type := { items : list pydict }.

Definition list_products (category q : option string) (limit : Z) : M Items :=
  try_except
    (let filter_dict := product_filter category q in
     docs <- get_documents "product" filter_dict limit ;;
     docs <- for_each
               (fun d => if truthy (default VNone (d !! "_id")) then convert_id d else ret d)
               docs ;;
     ret {| items := docs |})
    internal_error.

(** The query parameters of [GET /api/products] with their defaults. *)
Definition GET_api_products (category q : option string) (limit : option Z) : M Items :=
  list_products category q (default 50 limit).

Definition get_product (product_id : string) : M pydict :=
  try_except
    (oid <- lift (ObjectId product_id) ;;
     docs <- get_documents "product" [Field "_id" (Eq (VOid oid))] 1 ;;
     match docs with
     | [] => raise (HTTPException 404 (Msg "Product not found"))
     | d :: _ => convert_id d
     end)
    internal_error.

Definition sample_products : list Product :=
  [ {| title := "Protein Pizza (100g Protein)";
       description := Some "Stone-baked high-protein pizza with 100g protein per pie. Crispy crust, low-carb.";
       price := 14.99;
       category := "food";
       in_stock := true;
       image := Some "https://images.unsplash.com/photo-1542281286-9e0a16bb7366";
       protein_grams := Some 100;
       calories := Some 980;
       tags := Some ["pizza"; "high-protein"; "meal"] |};
    {| title := "Whey Protein Powder (2lb)";
       description := Some "Ultra-filtered whey with 24g protein per scoop. Mixes instantly.";
       price := 29.99;
       category := "powder";
       in_stock := true;
       image := Some "https://images.unsplash.com/photo-1517673400267-0251440c45dc";
       protein_grams := Some 24;
       calories := Some 120;
       tags := Some ["powder"; "whey"; "shake"] |};
    {| title := "Vegan Protein Blend (2lb)";
       description := Some "Pea + rice protein for a complete amino acid profile.";
       price := 32.99;
       category := "powder";
       in_stock := true;
       image := Some "https://images.unsplash.com/photo-1517957754645-708b06a1bbb2";
       protein_grams := Some 22;
       calories := Some 110;
       tags := Some ["vegan"; "powder"] |};
    {| title := "Protein Cookies (12-pack)";
       description := Some "Soft-baked cookies with 16g protein per cookie.";
       price := 19.99;
       category := "snack";
       in_stock := true;
       image := Some "https://images.unsplash.com/photo-1547414362-527f27b7b797";
       protein_grams := Some 16;
       calories := Some 220;
       tags := Some ["snack"; "cookie"] |} ].

Definition seed_products : M pydict :=
  try_except
    (existing <- get_documents "product" [] 1 ;;
     match existing with
     | _ :: _ => ret {[ "message" := VStr "Products already seeded" ]}
     | [] =>
         _ <- for_each (fun p => create_document "product" (model_dump p)) sample_products ;;
         ret {[ "message" := VStr "Seeded sample products" ]}
     end)
    internal_error.

(** The status line a client sees: 200 for a returned value, the status
    of an [HTTPException], 422 for a rejected body; [None] when another
    exception escapes the handler, or the run is not described. *)
Definition status {A} (r : outcome A) : option Z :=
  match r with
  | Ok _ => Some 200
  | Raise (HTTPException code _) => Some code
  | Raise (RequestValidationError _) => Some 422
  | Raise _ => None
  | Unmodelled => None
  end.

(** ** Notions used in the statements *)

(** The identifier of a stored document. *)
Definition doc_id (d : pydict) : option N :=
  match d !! "_id" with
  | Some (VOid n) => Some n
  | _ => None
  end.

(** Every document carries an identifier below [bound]. *)
Definition ids_below (bound : N) (docs : list pydict) : bool :=
  forallb (fun d => match doc_id d with Some n => (n <? bound)%N | None => false end) docs.

(** The invariant of the store: the documents of every collection carry
    identifiers the store has assigned already. *)
Definition ids_ok (st : database) : bool :=
  forallb (fun kv => ids_below (next_oid st) (snd kv)) (map_to_list (collections st)).

(** In addition, the next identifier still fits in 12 bytes. *)
Definition wf (st : database) : bool :=
  (next_oid st <? 2 ^ 96)%N && ids_ok st.

(** A stored document as the handlers return it: [_id] replaced by [id]. *)
Definition with_id (d : pydict) : pydict :=
  match doc_id d with
  | Some n => <["id" := VStr (ObjectId_str n)]> (delete "_id" d)
  | None => d
  end.

(** An identifier string that the decoder refuses: it is not 24
    characters long, or it is not a sequence of bytes of two hexadecimal
    digits, with or without whitespace between the bytes. *)
Definition malformed (s : string) : bool :=
  negb (String.length s =? 24)%nat
  || match fromhex (list_ascii_of_string s) with
     | Some _ => false
     | None => true
     end.



(** The document that the store keeps for a product, under identifier [n]. *)
Definition product_doc (p : Product) (n : N) : pydict :=
  <["_id" := VOid n]> (model_dump p).

Definition count_products (db : option database) : nat :=
  match db with
  | Some st => length (collection st "product")
  | None => O
  end.

(** The category condition and the free-text condition of a product
    query, on one document. *)
Definition category_condition (c : string) (d : pydict) : bool :=
  field_eq (VStr c) (d !! "category").

Definition term_condition (cre : bool * list ratom) (d : pydict) : bool :=
  field_regex cre (d !! "title")
  || field_regex cre (d !! "description")
  || field_regex cre (d !! "tags").








(** *** Concrete stores and payloads *)

Definition empty_store : database := {| collections := ∅; next_oid := 0 |}.

Definition whey : Product :=
  {| title := "Whey Protein Powder"; description := None; price := 29.99;
     category := "powder"; in_stock := true; image := None;
     protein_grams := None; calories := None; tags := None |}.

Definition whey_store : database := insert_one empty_store "product" (model_dump whey).

(** The store after seeding the empty store. *)
Definition seeded_store : database :=
  fold_left (fun st p => insert_one st "product" (model_dump p)) sample_products empty_store.

Definition cookies_payload : pydict :=
  <["title" := VStr "Protein Cookies"]>
  (<["price" := VFloat 19.99]>
  (<["category" := VStr "snack"]>
  (<["protein_grams" := VInt 16]> ∅))).

(** A payload that breaks the constraints of five fields at once. *)
Definition broken_payload : pydict :=
  <["price" := VInt (-1)]>
  (<["protein_grams" := VStr "x"]>
  (<["tags" := VList [VInt 1; VStr "a"; VInt 2]]>
  (<["description" := VNone]> ∅))).

Definition cookies : Product :=
  {| title := "Protein Cookies"; description := None; price := 19.99;
     category := "snack"; in_stock := true; image := None;
     protein_grams := Some 16; calories := None; tags := None |}.

(** The constraints that [schemas.py] declares for [Product], as a table:
    the annotated type, whether [None] is allowed, whether the field is
    required, and the lower bound. *)
Inductive ftype : Type := TStr | TFloat | TInt | TBool | TListStr.

Record FieldInfo : Type := {
  annotation : ftype;
  nullable : bool;
  required : bool;
  ge : option Z
}.

Definition Product_fields : list (string * FieldInfo) :=
  [ ("title", {| annotation := TStr; nullable := false; required := true; ge := None |});
    ("description", {| annotation := TStr; nullable := true; required := false; ge := None |});
    ("price", {| annotation := TFloat; nullable := false; required := true; ge := Some 0 |});
    ("category", {| annotation := TStr; nullable := false; required := true; ge := None |});
    ("in_stock", {| annotation := TBool; nullable := false; required := false; ge := None |});
    ("image", {| annotation := TStr; nullable := true; required := false; ge := None |});
    ("protein_grams", {| annotation := TInt; nullable := true; required := false; ge := Some 0 |});
    ("calories", {| annotation := TInt; nullable := true; required := false; ge := Some 0 |});
    ("tags", {| annotation := TListStr; nullable := true; required := false; ge := None |}) ].

(** Whether an input converts to the declared type (a list: with all its
    items), and to which number for the numeric types. *)
Definition converts (conv : Conversions) (t : ftype) (v : value) : option (option Q) :=
  match t with
  | TStr => match to_str conv v with Some _ => Some None | None => None end
  | TFloat => match to_float conv v with Some x => Some (Some x) | None => None end
  | TInt => match to_int conv v with Some n => Some (Some (inject_Z n)) | None => None end
  | TBool => match to_bool conv v with Some _ => Some None | None => None end
  | TListStr =>
      match to_list conv v with
      | Some l =>
          if forallb (fun x => match to_str conv x with Some _ => true | None => false end) l
          then Some None else None
      | None => None
      end
  end.

(** A payload violates the constraints of a field when the field is
    required and missing, or present with a value that is not of the
    declared type, or a number below the declared bound. *)
Definition violates (conv : Conversions) (payload : pydict) (f : string * FieldInfo) : bool :=
  match payload !! fst f with
  | None => required (snd f)
  | Some v =>
      match v, nullable (snd f) with
      | VNone, true => false
      | _, _ =>
          match converts conv (annotation (snd f)) v, ge (snd f) with
          | None, _ => true
          | Some (Some x), Some bound => negb (Qle_bool (inject_Z bound) x)
          | Some _, _ => false
          end
      end
  end.

(** The report of a validation: empty when it succeeded. *)
Definition errors_of {T} (r : list error + T) : list error :=
  match r with
  | inl errors => errors
  | inr _ => []
  end.

Definition failed {T} (r : list error + T) : bool :=
  match r with
  | inl _ => true
  | inr _ => false
  end.

(** A failed validation reports something. *)
Definition reports {E T} (r : list E + T) : Prop :=
  match r with
  | inl errors => errors <> []
  | inr _ => True
  end.

(** ** schemas.py: the other models

    [User], [OrderItem] and [Order].  The report of their validation
    locates each error by its path: field names, and indexes into lists. *)

Inductive loc_item : Type :=
  | Key (name : string)
  | Index (i : nat).

Inductive kind : Type :=
  | k_missing
  | k_type
  | k_greater_than_equal
  | k_less_than_equal.

Abbreviation finding := (list loc_item * kind)%type.

(** The findings about a part, seen from the whole. *)
Definition under (l : loc_item) (fs : list finding) : list finding :=
  map (fun f => (l :: fst f, snd f)) fs.

(** [ge=lo, le=hi] on an [int] and [ge=lo] on a [float]. *)
Definition int_bounds (lo hi : option Z) (n : Z) : option kind :=
  match lo with
  | Some b => if b <=? n then
                match hi with
                | Some c => if n <=? c then None else Some k_less_than_equal
                | None => None
                end
              else Some k_greater_than_equal
  | None =>
      match hi with
      | Some c => if n <=? c then None else Some k_less_than_equal
      | None => None
      end
  end.

Definition float_ge (lo : Z) (x : Q) : option kind :=
  if Qle_bool (inject_Z lo) x then None else Some k_greater_than_equal.

Definition no_bounds {T} (x : T) : option kind := None.

(** A value of a scalar type with its constraints. *)
Definition checked {T} (conv : value -> option T) (bounds : T -> option kind)
    (v : value) : list finding + T :=
  match conv v with
  | None => inl [([], k_type)]
  | Some x =>
      match bounds x with
      | Some k => inl [([], k)]
      | None => inr x
      end
  end.

(** [Optional[T]]. *)
Definition or_none {T} (c : value -> list finding + T) (v : value)
    : list finding + option T :=
  match v with
  | VNone => inr None
  | _ => match c v with inr x => inr (Some x) | inl fs => inl fs end
  end.

(** The items of a list from index [i] on, each validated by [c]; the
    findings of every item are kept, under the item's index. *)
Fixpoint each_from {T} (c : value -> list finding + T) (i : nat) (l : list value)
    : list finding + list T :=
  match l with
  | [] => inr []
  | v :: l' =>
      match c v, each_from c (S i) l' with
      | inr x, inr xs => inr (x :: xs)
      | inr _, inl fs => inl fs
      | inl fs, inr _ => inl (under (Index i) fs)
      | inl fs, inl fs' => inl (under (Index i) fs ++ fs')%list
      end
  end.

(** [List[T]]. *)
Definition list_with {T} (to_list : value -> option (list value))
    (c : value -> list finding + T) (v : value) : list finding + list T :=
  match to_list v with
  | Some l => each_from c 0 l
  | None => inl [([], k_type)]
  end.

(** The Python dict that a JSON object denotes: a later binding of a key
    replaces an earlier one. *)
Definition dict_of (d : list (string * value)) : pydict :=
  fold_left (fun m kv => <[fst kv := snd kv]> m) d ∅.

(** A field whose type is a model: the value must be an object, and is
    validated by the model. *)
Definition nested {T} (validate : pydict -> list finding + T) (v : value)
    : list finding + T :=
  match v with
  | VDict d => validate (dict_of d)
  | _ => inl [([], k_type)]
  end.

(** One declared field of a model; [dflt = None] for a required field. *)
Definition field {T} (payload : pydict) (name : string)
    (c : value -> list finding + T) (dflt : option T) : list finding + T :=
  match payload !! name with
  | None =>
      match dflt with
      | Some d => inr d
      | None => inl [([Key name], k_missing)]
      end
  | Some v =>
      match c v with
      | inl fs => inl (under (Key name) fs)
      | inr x => inr x
      end
  end.

Definition both {A B} (f : list finding + (A -> B)) (x : list finding + A)
    : list finding + B :=
  match f, x with
  | inr f, inr x => inr (f x)
  | inl e1, inl e2 => inl (e1 ++ e2)%list
  | inl e1, inr _ => inl e1
  | inr _, inl e2 => inl e2
  end.

Notation "f <&> x" := (both f x) (at level 61, left associativity).

Module User.
Record t : Type := {
  name : string;
  email : string;
  address : string;
  age : option Z;
  is_active : bool
}.
End User.

Definition User_validate (conv : Conversions) (payload : pydict) : list finding + User.t :=
  inr User.Build_t
    <&> field payload "name" (checked (to_str conv) no_bounds) None
    <&> field payload "email" (checked (to_str conv) no_bounds) None
    <&> field payload "address" (checked (to_str conv) no_bounds) None
    <&> field payload "age"
          (or_none (checked (to_int conv) (int_bounds (Some 0) (Some 120)))) (Some None)
    <&> field payload "is_active" (checked (to_bool conv) no_bounds) (Some true).

Definition User_dump (u : User.t) : pydict :=
  <["name" := VStr (User.name u)]>
  (<["email" := VStr (User.email u)]>
  (<["address" := VStr (User.address u)]>
  (<["age" := opt_value VInt (User.age u)]>
  (<["is_active" := VBool (User.is_active u)]> ∅)))).

Module OrderItem.
Record t : Type := {
  product_id : string;
  title : string;
  price : Q;
  quantity : Z
}.
End OrderItem.

Definition OrderItem_validate (conv : Conversions) (payload : pydict)
    : list finding + OrderItem.t :=
  inr OrderItem.Build_t
    <&> field payload "product_id" (checked (to_str conv) no_bounds) None
    <&> field payload "title" (checked (to_str conv) no_bounds) None
    <&> field payload "price" (checked (to_float conv) (float_ge 0)) None
    <&> field payload "quantity" (checked (to_int conv) (int_bounds (Some 1) None)) None.

Definition OrderItem_dump (i : OrderItem.t) : list (string * value) :=
  [ ("product_id", VStr (OrderItem.product_id i));
    ("title", VStr (OrderItem.title i));
    ("price", VFloat (OrderItem.price i));
    ("quantity", VInt (OrderItem.quantity i)) ].

Module Order.
Record t : Type := {
  customer_name : string;
  customer_email : string;
  customer_address : string;
  items : list OrderItem.t;
  subtotal : Q;
  tax : Q;
  total : Q;
  status : string
}.
End Order.

Definition Order_validate (conv : Conversions) (payload : pydict) : list finding + Order.t :=
  inr Order.Build_t
    <&> field payload "customer_name" (checked (to_str conv) no_bounds) None
    <&> field payload "customer_email" (checked (to_str conv) no_bounds) None
    <&> field payload "customer_address" (checked (to_str conv) no_bounds) None
    <&> field payload "items"
          (list_with (to_list conv) (nested (OrderItem_validate conv))) None
    <&> field payload "subtotal" (checked (to_float conv) (float_ge 0)) None
    <&> field payload "tax" (checked (to_float conv) (float_ge 0)) None
    <&> field payload "total" (checked (to_float conv) (float_ge 0)) None
    <&> field payload "status" (checked (to_str conv) no_bounds) (Some "pending").

(** [order.model_dump()]: the items become dicts. *)
Definition Order_dump (o : Order.t) : pydict :=
  <["customer_name" := VStr (Order.customer_name o)]>
  (<["customer_email" := VStr (Order.customer_email o)]>
  (<["customer_address" := VStr (Order.customer_address o)]>
  (<["items" := VList (map (fun i => VDict (OrderItem_dump i)) (Order.items o))]>
  (<["subtotal" := VFloat (Order.subtotal o)]>
  (<["tax" := VFloat (Order.tax o)]>
  (<["total" := VFloat (Order.total o)]>
  (<["status" := VStr (Order.status o)]> ∅))))))).

(** ** main.py: the other handlers *)

Definition create_order (order : Order.t) : M pydict :=
  try_except
    (order_id <- create_document "order" (Order_dump order) ;;
     ret {[ "id" := VStr order_id ]})
    internal_error.

(** What [test_database] depends on besides the store: the environment
    variables, the [name] attribute of the handle when it has one, the
    exception that a request to the server raises when the server cannot be
    reached (the handle is made without contacting it), and [str(e)[:50]]
    for an exception [e]. *)
Record Surroundings : Type := {
  getenv : string -> option string;
  db_name : option string;
  unreachable : option exn;
  message_head : exn -> string
}.

(** [db.list_collection_names()]: the names of the collections, or the
    exception of a server that cannot be reached. *)
Definition list_collection_names (env : Surroundings) (st : database)
    : outcome (list string) :=
  match unreachable env with
  | Some e => Raise e
  | None => Ok (map fst (map_to_list (collections st)))
  end.

Definition env_is_set (o : option string) : bool :=
  match o with
  | Some s => truthy (VStr s)
  | None => false
  end.

Definition test_database (env : Surroundings) : M pydict :=
  fun db =>
    let response : pydict :=
      <["backend" := VStr "✅ Running"]>
      (<["database" := VStr "❌ Not Available"]>
      (<["database_url" := VNone]>
      (<["database_name" := VNone]>
      (<["connection_status" := VStr "Not Connected"]>
      (<["collections" := VList []]> ∅))))) in
    let response :=
      match db with
      | Some st =>
          let response := <["database" := VStr "✅ Available"]> response in
          let response := <["database_url" := VStr "✅ Configured"]> response in
          let response :=
            <["database_name" :=
                VStr (match db_name env with Some n => n | None => "✅ Connected" end)]>
              response in
          let response := <["connection_status" := VStr "Connected"]> response in
          match list_collection_names env st with
          | Ok collections =>
              let response :=
                <["collections" := VList (map VStr (take 10 collections))]> response in
              <["database" := VStr "✅ Connected & Working"]> response
          | Raise e =>
              <["database" :=
                  VStr ("⚠️  Connected but Error: " ++ message_head env e)]>
                response
          | Unmodelled => response
          end
      | None => <["database" := VStr "⚠️  Available but not initialized"]> response
      end in
    let response :=
      <["database_url" :=
          VStr (if env_is_set (getenv env "DATABASE_URL") then "✅ Set" else "❌ Not Set")]>
        response in
    let response :=
      <["database_name" :=
          VStr (if env_is_set (getenv env "DATABASE_NAME") then "✅ Set" else "❌ Not Set")]>
        response in
    (Ok response, db).

(** ** Further notions used in the statements *)

(** The documents carry identifiers of 12 bytes, no two of them the
    same. *)
Definition has_id (n : N) (d : pydict) : bool :=
  match doc_id d with
  | Some m => (n =? m)%N
  | None => false
  end.

Fixpoint ids_unique (docs : list pydict) : bool :=
  match docs with
  | [] => true
  | d :: docs' =>
      match doc_id d with
      | Some n => (n <? 2 ^ 96)%N && negb (existsb (has_id n) docs') && ids_unique docs'
      | None => false
      end
  end.

(** A computation that leaves the store as it found it, and one that
    raises no exception. *)
Definition read_only {A} (m : M A) : Prop := forall db, snd (m db) = db.
Definition never_raises {A} (m : M A) : Prop := forall db e, fst (m db) <> Raise e.

(** A handler's failure is a 500 whose cause is one of [causes]. *)
Definition fails_only_with {A} (causes : list exn) (r : outcome A) : Prop :=
  match r with
  | Raise e => exists cause, In cause causes /\ e = HTTPException 500 (Str cause)
  | _ => True
  end.

(** The outcome is an answer: neither an exception nor a run that leaves
    what is described here. *)
Definition answers {A} (r : outcome A) : bool :=
  match r with
  | Ok _ => true
  | _ => false
  end.

(** The filter lies in the described fragment of the query language. *)
Definition described (filter_dict : filter_t) : bool :=
  match compile_filter filter_dict with
  | Some _ => true
  | None => false
  end.

(** Without a connection the handler answers 500 for the store's error and
    leaves the handle as it is. *)
Definition fails_disconnected {A} (h : M A) : Prop :=
  h None = (Raise (HTTPException 500 (Str StorageUnavailable)), None).

(** A string with its ASCII letters in lower case. *)
Definition lowercase (s : string) : string :=
  string_of_list_ascii (map lower (list_ascii_of_string s)).

(** The constraints of the models, on their instances. *)
Definition Product_ok (p : Product) : bool :=
  Qle_bool 0 (price p)
  && ge_opt (ge_int 0) (protein_grams p)
  && ge_opt (ge_int 0) (calories p).

Definition User_ok (u : User.t) : bool :=
  match User.age u with
  | Some a => (0 <=? a) && (a <=? 120)
  | None => true
  end.

Definition OrderItem_ok (i : OrderItem.t) : bool :=
  Qle_bool 0 (OrderItem.price i) && (1 <=? OrderItem.quantity i).

Definition Order_ok (o : Order.t) : bool :=
  forallb OrderItem_ok (Order.items o)
  && Qle_bool 0 (Order.subtotal o)
  && Qle_bool 0 (Order.tax o)
  && Qle_bool 0 (Order.total o).

(** *** Further stores, payloads and notions *)

(** A stored product whose numbers satisfy the bounds that [Product]
    declares. *)
Definition product_doc_ok (d : pydict) : bool :=
  match d !! "price" with
  | Some (VFloat x) => Qle_bool 0 x
  | _ => false
  end
  && match d !! "protein_grams" with
     | Some VNone => true
     | Some (VInt n) => 0 <=? n
     | _ => false
     end
  && match d !! "calories" with
     | Some VNone => true
     | Some (VInt n) => 0 <=? n
     | _ => false
     end.

Definition products_ok (db : option database) : bool :=
  match db with
  | Some st => forallb product_doc_ok (collection st "product")
  | None => true
  end.

Definition rejected {T} (r : list finding + T) : bool :=
  match r with
  | inl _ => true
  | inr _ => false
  end.

(** The two variables that [test_database] reads are set alike, and the
    server is reached, or fails, alike. *)
Definition same_settings (env env' : Surroundings) : Prop :=
  env_is_set (getenv env "DATABASE_URL") = env_is_set (getenv env' "DATABASE_URL")
  /\ env_is_set (getenv env "DATABASE_NAME") = env_is_set (getenv env' "DATABASE_NAME")
  /\ unreachable env = unreachable env'
  /\ (forall e, message_head env e = message_head env' e).

(** A store whose products were not given their identifiers in the order
    of insertion. *)
Definition shuffled_store : database :=
  {| collections := {[ "product" := [product_doc whey 5; product_doc cookies 3] ]};
     next_oid := 6 |}.

Definition at_home : Surroundings :=
  {| getenv := fun _ => None; db_name := Some "shop";
     unreachable := None; message_head := fun _ => "" |}.

Definition cut_off : Surroundings :=
  {| getenv := fun _ => Some ""; db_name := None;
     unreachable := Some StorageUnavailable;
     message_head := fun _ => "No servers found yet" |}.

(** The findings of a validation: none when it succeeded. *)
Definition findings_of {T} (r : list finding + T) : list finding :=
  match r with
  | inl fs => fs
  | inr _ => []
  end.

Definition ann_payload : pydict :=
  <["name" := VStr "Ann"]>
  (<["email" := VStr "ann@example.org"]>
  (<["address" := VStr "1 Main St"]>
  (<["age" := VInt 120]> ∅))).

Definition ann : User.t :=
  {| User.name := "Ann"; User.email := "ann@example.org"; User.address := "1 Main St";
     User.age := Some 120; User.is_active := true |}.

Definition order_payload : pydict :=
  <["customer_name" := VStr "Ann"]>
  (<["customer_email" := VStr "ann@example.org"]>
  (<["customer_address" := VStr "1 Main St"]>
  (<["items" := VList [VDict [("product_id", VStr "000000000000000000000000");
                              ("title", VStr "Whey Protein Powder");
                              ("price", VFloat 29.99);
                              ("quantity", VInt 2)]]]>
  (<["subtotal" := VFloat 59.98]>
  (<["tax" := VInt 0]>
  (<["total" := VFloat 59.98]> ∅)))))).

Definition ann_order : Order.t :=
  {| Order.customer_name := "Ann"; Order.customer_email := "ann@example.org";
     Order.customer_address := "1 Main St";
     Order.items := [ {| OrderItem.product_id := "000000000000000000000000";
                         OrderItem.title := "Whey Protein Powder";
                         OrderItem.price := 29.99;
                         OrderItem.quantity := 2 |} ];
     Order.subtotal := 59.98; Order.tax := 0; Order.total := 59.98;
     Order.status := "pending" |}.

(** An order payload whose second item has quantity 0. *)
Definition bad_order_payload : pydict :=
  <["items" := VList [VDict [("product_id", VStr "p"); ("title", VStr "t");
                             ("price", VInt 1); ("quantity", VInt 1)];
                      VDict [("product_id", VStr "p"); ("title", VStr "t");
                             ("price", VInt 1); ("quantity", VInt 0)]]]>
  order_payload.

(** ** Properties of the identifier codec *)

Lemma hex_value_digit (k : N) : (k < 16)%N -> hex_value (hex_digit k) = Some k.
Proof.
  intros Hk.
  assert (Hcases : In k (map N.of_nat (seq 0 16))).
  { apply in_map_iff. exists (N.to_nat k). split; [lia|]. apply in_seq. lia. }
  simpl in Hcases.
  repeat (destruct Hcases as [<- | Hcases]; [reflexivity|]).
  destruct Hcases.
Qed.

Lemma unhexlify_from_app (l1 l2 : list ascii) (acc : N) :
  unhexlify_from acc (l1 ++ l2) =
  match unhexlify_from acc l1 with
  | Some a => unhexlify_from a l2
  | None => None
  end.
Proof.
  revert acc. induction l1 as [|c l1 IH]; intros acc; simpl; [reflexivity|].
  destruct (hex_value c); [apply IH | reflexivity].
Qed.

Lemma unhexlify_from_hexlify (d : nat) :
  forall acc n,
    unhexlify_from acc (hexlify d n) = Some (acc * 16 ^ N.of_nat d + n mod 16 ^ N.of_nat d)%N.
Proof.
  induction d as [|d IH]; intros acc n.
  - simpl. rewrite N.mod_1_r. f_equal. lia.
  - cbn [hexlify]. rewrite unhexlify_from_app, IH. cbn [unhexlify_from].
    rewrite hex_value_digit by (apply N.mod_lt; lia).
    f_equal. rewrite Nat2N.inj_succ, N.pow_succ_r'.
    rewrite (N.Div0.mod_mul_r n 16 (16 ^ N.of_nat d)). lia.
Qed.

Lemma length_hexlify (d : nat) (n : N) : length (hexlify d n) = d.
Proof.
  revert n. induction d as [|d IH]; intros n; simpl; [reflexivity|].
  rewrite length_app, IH. simpl. lia.
Qed.

Lemma length_string_of_list_ascii (l : list ascii) :
  String.length (string_of_list_ascii l) = length l.
Proof. induction l; simpl; congruence. Qed.

Lemma hex_not_space (c : ascii) : is_hex c = true -> is_space c = false.
Proof. destruct c as [[] [] [] [] [] [] [] []]; vm_compute; congruence. Qed.

Lemma unhexlify_from_hex (l : list ascii) :
  forall acc n c, unhexlify_from acc l = Some n -> In c l -> is_hex c = true.
Proof.
  induction l as [|a l IH]; intros acc n c Hl Hin; [destruct Hin|].
  simpl in Hl. unfold is_hex. destruct (hex_value a) as [v|] eqn:Ha; [|discriminate Hl].
  destruct Hin as [<- | Hin]; [rewrite Ha; reflexivity|].
  exact (IH _ _ _ Hl Hin).
Qed.

(** [bytes.fromhex] decodes every string of an even number of hexadecimal
    digits. *)
Lemma fromhex_from_hex (l : list ascii) :
  forall top,
    (forall c, In c l -> is_hex c = true) ->
    Nat.even (length l) = match top with None => true | Some _ => false end ->
    fromhex_from top l <> None.
Proof.
  induction l as [|a l IH]; intros top Hhex Heven.
  - destruct top; [discriminate Heven | discriminate].
  - assert (Ha : is_hex a = true) by (apply Hhex; left; reflexivity).
    assert (Hl : forall c, In c l -> is_hex c = true) by (intros c Hc; apply Hhex; right; exact Hc).
    cbn [length] in Heven. rewrite Nat.even_succ, <- Nat.negb_even in Heven.
    cbn [fromhex_from]. rewrite (hex_not_space a Ha).
    unfold is_hex in Ha. destruct (hex_value a) as [v|]; [|discriminate Ha].
    destruct top as [hi|].
    + specialize (IH None Hl). destruct (fromhex_from None l); [discriminate|].
      apply IH. destruct (Nat.even (length l)); [reflexivity | discriminate Heven].
    + apply (IH (Some v) Hl). destruct (Nat.even (length l)); [discriminate Heven | reflexivity].
Qed.

(** [bytes.fromhex] refuses a string with a character that is neither a
    hexadecimal digit nor whitespace. *)
Lemma fromhex_from_bad (l : list ascii) :
  (exists c, In c l /\ is_hex c = false /\ is_space c = false) ->
  forall top, fromhex_from top l = None.
Proof.
  induction l as [|a l IH]; intros (c & Hin & Hhex & Hspace) top; [destruct Hin|].
  cbn [fromhex_from]. destruct Hin as [-> | Hin].
  - unfold is_hex in Hhex. rewrite Hspace.
    destruct (hex_value c); [discriminate Hhex|]. destruct top; reflexivity.
  - assert (Hl : forall top, fromhex_from top l = None).
    { apply IH. exists c. repeat split; assumption. }
    destruct top as [hi|].
    + destruct (hex_value a); [|reflexivity]. rewrite Hl. reflexivity.
    + destruct (is_space a); [apply Hl|]. destruct (hex_value a); [apply Hl | reflexivity].
Qed.

(** Decoding the string form of an identifier gives the identifier back. *)
Lemma ObjectId_str_roundtrip (n : N) :
  (n < 2 ^ 96)%N -> ObjectId (ObjectId_str n) = Ok n.
Proof.
  intros Hn. unfold ObjectId, ObjectId_str.
  rewrite length_string_of_list_ascii, length_hexlify, Nat.eqb_refl.
  rewrite list_ascii_of_string_of_list_ascii.
  destruct (fromhex (hexlify 24 n)) as [bytes|] eqn:Hbytes.
  2:{ exfalso. revert Hbytes. apply fromhex_from_hex.
      - intros c Hc.
        apply (unhexlify_from_hex (hexlify 24 n) 0 _ c (unhexlify_from_hexlify 24 0 n) Hc).
      - rewrite length_hexlify. reflexivity. }
  unfold unhexlify. rewrite unhexlify_from_hexlify.
  change (16 ^ N.of_nat 24)%N with (2 ^ 96)%N.
  rewrite N.mod_small by exact Hn. reflexivity.
Qed.

Lemma ObjectId_str_inj (n m : N) :
  (n < 2 ^ 96)%N -> (m < 2 ^ 96)%N -> ObjectId_str n = ObjectId_str m -> n = m.
Proof.
  intros Hn Hm Heq.
  pose proof (ObjectId_str_roundtrip n Hn) as H1.
  pose proof (ObjectId_str_roundtrip m Hm) as H2.
  rewrite Heq in H1. congruence.
Qed.

(** ** Properties of the regular expression fragment *)







(** ** Properties of the filters *)

Lemma truthy_str (s : string) : truthy (VStr s) = true <-> s <> "".
Proof.
  simpl. rewrite negb_true_iff. split.
  - intros H ->. discriminate H.
  - intros H. apply String.eqb_neq. exact H.
Qed.

Lemma compile_filter_app (f1 f2 : filter_t) (p : pydict -> bool) :
  compile_filter (f1 ++ f2) = Some p ->
  exists p1 p2,
    compile_filter f1 = Some p1 /\ compile_filter f2 = Some p2
    /\ forall d, p d = p1 d && p2 d.
Proof.
  revert p. induction f1 as [|c f1 IH]; intros p; simpl.
  - intros Hp. exists (fun _ => true), p. repeat split; assumption.
  - destruct (compile_clause c) as [pc|]; [|discriminate].
    destruct (compile_filter (f1 ++ f2)) as [p12|] eqn:H12; [|discriminate].
    simpl. intros [= <-].
    destruct (IH p12 eq_refl) as (p1 & p2 & -> & -> & Hd).
    eexists _, p2. repeat split. intros d. simpl. rewrite Hd.
    apply andb_assoc.
Qed.

(** The filter of a query with a category and a term, both non-empty. *)
Lemma compile_product_filter (c t : string) (cre : bool * list ratom) :
  c <> "" -> t <> "" -> re_compile t "i" = Some cre ->
  exists p,
    compile_filter (product_filter (Some c) (Some t)) = Some p
    /\ forall d, p d = category_condition c d && term_condition cre d.
Proof.
  intros Hc%truthy_str Ht%truthy_str Hre.
  unfold product_filter. rewrite Hc, Ht. simpl. rewrite Hre. simpl.
  eexists. split; [reflexivity|]. intros d.
  unfold category_condition, term_condition.
  rewrite !andb_true_r, orb_false_r, orb_assoc. reflexivity.
Qed.


(** ** Properties of the store *)

Lemma collection_insert_one (st : database) (name : string) (data : pydict) :
  collection (insert_one st name data) name
  = (collection st name ++ [<["_id" := VOid (next_oid st)]> data])%list.
Proof. unfold collection at 1, insert_one. simpl. rewrite lookup_insert_eq. reflexivity. Qed.

Lemma collection_insert_one_ne (st : database) (name name' : string) (data : pydict) :
  name <> name' -> collection (insert_one st name data) name' = collection st name'.
Proof.
  intros Hne. unfold collection, insert_one. simpl.
  rewrite lookup_insert_ne by exact Hne. reflexivity.
Qed.

Lemma ids_below_In (bound : N) (docs : list pydict) (d : pydict) :
  ids_below bound docs = true -> In d docs ->
  exists n, doc_id d = Some n /\ (n < bound)%N.
Proof.
  unfold ids_below. rewrite forallb_forall. intros Hall Hin.
  specialize (Hall d Hin). destruct (doc_id d) as [n|]; [|discriminate].
  exists n. split; [reflexivity|]. apply N.ltb_lt. exact Hall.
Qed.

Lemma ids_below_mono (b1 b2 : N) (docs : list pydict) :
  (b1 <= b2)%N -> ids_below b1 docs = true -> ids_below b2 docs = true.
Proof.
  unfold ids_below. rewrite !forallb_forall. intros Hle Hall d Hin.
  specialize (Hall d Hin). destruct (doc_id d) as [n|]; [|discriminate].
  apply N.ltb_lt. apply N.ltb_lt in Hall. lia.
Qed.

Lemma ids_ok_collection (st : database) (name : string) :
  ids_ok st = true -> ids_below (next_oid st) (collection st name) = true.
Proof.
  unfold ids_ok, collection. rewrite forallb_forall. intros Hall.
  destruct (collections st !! name) as [docs|] eqn:Hdocs; [|reflexivity].
  apply (Hall (name, docs)). apply list_elem_of_In, elem_of_map_to_list. exact Hdocs.
Qed.

Lemma doc_id_insert (n : N) (data : pydict) : doc_id (<["_id" := VOid n]> data) = Some n.
Proof. unfold doc_id. rewrite lookup_insert_eq. reflexivity. Qed.

(** Insertion keeps the invariant of the store. *)
Lemma ids_ok_insert_one (st : database) (name : string) (data : pydict) :
  ids_ok st = true -> ids_ok (insert_one st name data) = true.
Proof.
  intros Hok. unfold ids_ok. apply forallb_forall. intros [name' docs] Hin.
  apply list_elem_of_In, elem_of_map_to_list in Hin. simpl in *.
  assert (Hcol : docs = collection (insert_one st name data) name').
  { unfold collection. simpl. rewrite Hin. reflexivity. }
  rewrite Hcol. destruct (decide (name = name')) as [<-|Hne].
  - rewrite collection_insert_one. unfold ids_below. rewrite forallb_app.
    apply andb_true_iff. split.
    + apply (ids_below_mono (next_oid st)); [lia|]. apply ids_ok_collection, Hok.
    + simpl. rewrite doc_id_insert, andb_true_r. apply N.ltb_lt. lia.
  - rewrite collection_insert_one_ne by exact Hne.
    apply (ids_below_mono (next_oid st)); [lia|]. apply ids_ok_collection, Hok.
Qed.

Lemma ids_ok_empty : ids_ok empty_store = true.
Proof. reflexivity. Qed.

(** No stored document carries an identifier that is still unassigned. *)
Lemma filter_id_unassigned (n : N) (docs : list pydict) :
  ids_below n docs = true ->
  List.filter (fun d => field_eq (VOid n) (d !! "_id") && true) docs = [].
Proof.
  induction docs as [|d docs IH]; simpl; [reflexivity|].
  intros [Hd Hdocs]%andb_true_iff. rewrite (IH Hdocs).
  unfold doc_id in Hd. destruct (d !! "_id") as [v|]; [|discriminate Hd].
  destruct v as [ | | | | | | | m]; try discriminate Hd. simpl.
  apply N.ltb_lt in Hd. replace (n =? m)%N with false; [reflexivity|].
  symmetry. apply N.eqb_neq. lia.
Qed.

Lemma model_dump_no_id (p : Product) :
  model_dump p !! "_id" = None /\ model_dump p !! "id" = None.
Proof. split; reflexivity. Qed.

Lemma create_product_ok (st : database) (p : Product) :
  create_product p (Some st)
  = (Ok {[ "id" := VStr (ObjectId_str (next_oid st)) ]},
     Some (insert_one st "product" (model_dump p))).
Proof.
  unfold create_product, try_except, bind, create_document, has_identifier_field.
  destruct (model_dump_no_id p) as [-> ->]. reflexivity.
Qed.

(** What [get_product] does once the identifier is decoded. *)
Lemma get_product_decoded (st : database) (product_id : string) (n : N) :
  ObjectId product_id = Ok n ->
  get_product product_id (Some st) =
  match List.filter (fun d => field_eq (VOid n) (d !! "_id") && true)
                    (collection st "product") with
  | [] => (Raise (HTTPException 500 (Str (HTTPException 404 (Msg "Product not found")))),
           Some st)
  | d :: _ => try_except (convert_id d) internal_error (Some st)
  end.
Proof.
  intros Hid. unfold get_product, try_except, bind, lift, get_documents.
  rewrite Hid. simpl.
  destruct (List.filter _ (collection st "product")) as [|d docs]; reflexivity.
Qed.

(** A valid identifier without a document: the 404 raised inside the
    [try] is caught by its own [except] and leaves as a 500. *)
Lemma get_product_absent (st : database) (product_id : string) (n : N) :
  ObjectId product_id = Ok n ->
  (forall d, In d (collection st "product") -> field_eq (VOid n) (d !! "_id") = false) ->
  get_product product_id (Some st)
  = (Raise (HTTPException 500 (Str (HTTPException 404 (Msg "Product not found")))),
     Some st).
Proof.
  intros Hid Habsent. rewrite (get_product_decoded st product_id n Hid).
  replace (List.filter _ (collection st "product")) with (@nil pydict); [reflexivity|].
  symmetry. induction (collection st "product") as [|d docs IH]; [reflexivity|].
  simpl. rewrite IH by (intros d' Hd'; apply Habsent; right; exact Hd').
  rewrite (Habsent d) by (left; reflexivity). reflexivity.
Qed.

(** An identifier that does not decode: [InvalidId] is caught and leaves
    as a 500, with or without a connection. *)
Lemma get_product_invalid (db : option database) (product_id : string) :
  ObjectId product_id = Raise (InvalidId product_id) ->
  get_product product_id db
  = (Raise (HTTPException 500 (Str (InvalidId product_id))), db).
Proof.
  intros Hid. unfold get_product, try_except, bind, lift. rewrite Hid. reflexivity.
Qed.

(** The decoder refuses every malformed identifier, and no other. *)
Lemma ObjectId_malformed (s : string) :
  malformed s = true <-> ObjectId s = Raise (InvalidId s).
Proof.
  unfold malformed, ObjectId.
  destruct (String.length s =? 24)%nat; simpl; [|tauto].
  destruct (fromhex (list_ascii_of_string s)) as [bytes|]; [|tauto].
  destruct (unhexlify (list_ascii_of_string s)); split; discriminate.
Qed.

Lemma get_product_malformed (db : option database) (product_id : string) :
  malformed product_id = true ->
  get_product product_id db
  = (Raise (HTTPException 500 (Str (InvalidId product_id))), db).
Proof. intros Hbad. apply get_product_invalid, ObjectId_malformed, Hbad. Qed.


Lemma ObjectId_cases (s : string) :
  (exists n, ObjectId s = Ok n) \/ ObjectId s = Raise (InvalidId s)
  \/ ObjectId s = Unmodelled.
Proof.
  unfold ObjectId. destruct (String.length s =? 24)%nat; [|right; left; reflexivity].
  destruct (fromhex _); [|right; left; reflexivity].
  destruct (unhexlify _) as [n|]; [left; exists n | right; right]; reflexivity.
Qed.

Lemma product_filter_split (category q : option string) :
  product_filter category q
  = (product_filter category None ++ product_filter None q)%list.
Proof.
  unfold product_filter.
  destruct category as [c|]; destruct q as [t|]; simpl;
    repeat match goal with |- context [negb ?b] => destruct (negb b) end;
    reflexivity.
Qed.

Lemma filter_all {A} (l : list A) : List.filter (fun _ => true) l = l.
Proof. induction l as [|x l IH]; simpl; congruence. Qed.

(** The loop of [seed_products]: each sample is inserted in turn. *)
Lemma for_each_create (ps : list Product) :
  forall st,
    exists ids,
      for_each (fun p => create_document "product" (model_dump p)) ps (Some st)
      = (Ok ids,
         Some (fold_left (fun st p => insert_one st "product" (model_dump p)) ps st)).
Proof.
  induction ps as [|p ps IH]; intros st.
  - exists []. reflexivity.
  - destruct (IH (insert_one st "product" (model_dump p))) as (ids & Hids).
    exists (ObjectId_str (next_oid st) :: ids).
    cbn [for_each fold_left]. unfold bind at 1.
    unfold create_document at 1, has_identifier_field.
    destruct (model_dump_no_id p) as [-> ->].
    unfold bind at 1. rewrite Hids. reflexivity.
Qed.

Lemma length_collection_fold_insert (ps : list Product) :
  forall st,
    length (collection
              (fold_left (fun st p => insert_one st "product" (model_dump p)) ps st)
              "product")
    = (length (collection st "product") + length ps)%nat.
Proof.
  induction ps as [|p ps IH]; intros st; simpl; [lia|].
  rewrite IH, collection_insert_one, length_app. simpl. lia.
Qed.

Lemma seed_products_nonempty (st : database) :
  collection st "product" <> [] ->
  seed_products (Some st)
  = (Ok {[ "message" := VStr "Products already seeded" ]}, Some st).
Proof.
  intros Hne. unfold seed_products, try_except, bind, get_documents.
  cbn [compile_filter]. rewrite filter_all.
  destruct (collection st "product") as [|d docs]; [contradiction|]. reflexivity.
Qed.

Lemma seed_products_empty (st : database) :
  collection st "product" = [] ->
  seed_products (Some st)
  = (Ok {[ "message" := VStr "Seeded sample products" ]},
     Some (fold_left (fun st p => insert_one st "product" (model_dump p))
                     sample_products st)).
Proof.
  intros Hempty. unfold seed_products, try_except.
  unfold bind at 1. unfold get_documents.
  cbn [compile_filter]. rewrite filter_all, Hempty, take_nil. unfold bind.
  destruct (for_each_create sample_products st) as (ids & ->). reflexivity.
Qed.

(** The loop of [list_products] over stored documents. *)
Lemma for_each_convert (docs : list pydict) (db : option database) :
  (forall d, In d docs -> exists n, doc_id d = Some n) ->
  for_each (fun d => if truthy (default VNone (d !! "_id")) then convert_id d else ret d)
           docs db
  = (Ok (map with_id docs), db).
Proof.
  induction docs as [|d docs IH]; intros Hids; [reflexivity|].
  assert (Hd : (if truthy (default VNone (d !! "_id")) then convert_id d else ret d) db
               = (Ok (with_id d), db)).
  { destruct (Hids d (or_introl eq_refl)) as (n & Hn).
    unfold with_id. rewrite Hn. unfold doc_id in Hn.
    destruct (d !! "_id") as [v|] eqn:Hv; [|discriminate Hn].
    destruct v as [ | | | | | | | m]; try discriminate Hn. injection Hn as ->.
    unfold convert_id, bind, lift, dict_pop. rewrite Hv. reflexivity. }
  cbn [for_each map]. unfold bind at 1. rewrite Hd.
  unfold bind at 1. rewrite IH by (intros d' Hd'; apply Hids; right; exact Hd').
  reflexivity.
Qed.

Lemma In_take {A} (n : nat) (l : list A) (x : A) : In x (take n l) -> In x l.
Proof.
  intros Hin. rewrite <- (take_drop n l). apply in_or_app. left. exact Hin.
Qed.

(** ** Properties of validation *)

Lemma errors_of_gather {A B} (f : list error + (A -> B)) (x : list error + A) :
  errors_of (f <*> x) = (errors_of f ++ errors_of x)%list.
Proof. destruct f, x; simpl; rewrite ?app_nil_r; reflexivity. Qed.

Lemma reports_gather {A B} (f : list error + (A -> B)) (x : list error + A) :
  reports f -> reports x -> reports (f <*> x).
Proof.
  destruct f as [e1|f], x as [e2|x]; simpl; try tauto.
  intros H1 _ Happ. apply app_eq_nil in Happ. tauto.
Qed.

Lemma reports_scalar {T} (conv : value -> option T) (v : value) : reports (scalar conv v).
Proof. unfold scalar. destruct (conv v); simpl; [exact I | discriminate]. Qed.

(** The items of a list convert exactly when each of them does. *)
Lemma items_from_ok {T} (conv : value -> option T) (l : list value) :
  forall i,
    reports (items_from conv i l)
    /\ (forallb (fun x => match conv x with Some _ => true | None => false end) l
        = match items_from conv i l with inr _ => true | inl _ => false end).
Proof.
  induction l as [|v l IH]; intros i; simpl; [split; [exact I | reflexivity]|].
  destruct (IH (S i)) as [Hrep Hall]. rewrite Hall.
  destruct (conv v), (items_from conv (S i) l); simpl in *;
    (split; [first [exact I | exact Hrep | discriminate] | reflexivity]).
Qed.

Lemma reports_list_of {T} (to_list : value -> option (list value))
    (conv : value -> option T) (v : value) :
  reports (list_of to_list conv v).
Proof.
  unfold list_of. destruct (to_list v) as [l|]; [apply items_from_ok | discriminate].
Qed.

Lemma reports_optional {T} (conv : value -> list complaint + T) (v : value) :
  (forall v, reports (conv v)) -> reports (optional conv v).
Proof.
  intros Hconv. unfold optional.
  destruct v; try exact I;
    match goal with |- context [conv ?w] =>
      pose proof (Hconv w) as H; destruct (conv w); [exact H | exact I] end.
Qed.

Lemma reports_validate_field {T} (payload : pydict) (name : string)
    (conv : value -> list complaint + T) (dflt : option T) (constraint : T -> bool) :
  (forall v, reports (conv v)) ->
  reports (validate_field payload name conv dflt constraint).
Proof.
  intros Hconv. unfold validate_field.
  destruct (payload !! name) as [v|]; [|destruct dflt; simpl; [exact I | discriminate]].
  specialize (Hconv v). destruct (conv v) as [es|x]; simpl in *.
  - destruct es; [tauto | discriminate].
  - destruct (constraint x); simpl; [exact I | discriminate].
Qed.

Lemma Qle_bool_inject_Z (a b : Z) : Qle_bool (inject_Z a) (inject_Z b) = (a <=? b).
Proof. unfold Qle_bool. simpl. rewrite !Z.mul_1_r. reflexivity. Qed.

Lemma In_filter_cons {A B} (f : A * B -> bool) (x : A * B) (l : list (A * B)) (a : A) :
  In a (map fst (List.filter f (x :: l)))
  <-> (f x = true /\ a = fst x) \/ In a (map fst (List.filter f l)).
Proof.
  simpl. destruct (f x); simpl; intuition (congruence || auto).
Qed.

(** The fields named by the report of one field validator. *)
Lemma named_by_validate_field {T} (payload : pydict) (name : string)
    (conv : value -> list complaint + T) (dflt : option T) (constraint : T -> bool)
    (a : string) :
  (forall v, reports (conv v)) ->
  In a (map field_of (errors_of (validate_field payload name conv dflt constraint)))
  <-> (failed (validate_field payload name conv dflt constraint) = true /\ a = name).
Proof.
  intros Hconv. unfold validate_field.
  destruct (payload !! name) as [v|].
  - specialize (Hconv v). destruct (conv v) as [es|x]; simpl in *.
    + rewrite map_map. simpl. split.
      * intros (e & <- & _)%in_map_iff. split; reflexivity.
      * intros [_ ->]. destruct es as [|e es]; [tauto|]. left. reflexivity.
    + destruct (constraint x); simpl; intuition (congruence || auto).
  - destruct dflt; simpl; intuition (congruence || auto).
Qed.

(** A field validator fails exactly when the payload violates the
    declared constraints of the field. *)
Ltac field_fails :=
  unfold validate_field, violates, converts, optional, scalar, list_of, ge_opt,
    ge_float, ge_int, unconstrained;
  cbn [fst snd annotation nullable required ge];
  repeat match goal with
         | |- context [match ?x with _ => _ end] =>
             match x with
             | context [match _ with _ => _ end] => fail 1
             | _ => destruct x eqn:?
             end
         end;
  rewrite ?Qle_bool_inject_Z in *; simpl in *;
  try reflexivity; try discriminate; try congruence;
  match goal with
  | H : ?b = _ |- context [negb ?b] => rewrite H; reflexivity
  end.

Lemma fails_required_str (conv : Conversions) (payload : pydict) (name : string) :
  failed (validate_field payload name (scalar (to_str conv)) None unconstrained)
  = violates conv payload
      (name, {| annotation := TStr; nullable := false; required := true; ge := None |}).
Proof. unfold failed. field_fails. Qed.

Lemma fails_optional_str (conv : Conversions) (payload : pydict) (name : string) :
  failed (validate_field payload name (optional (scalar (to_str conv))) (Some None)
                         unconstrained)
  = violates conv payload
      (name, {| annotation := TStr; nullable := true; required := false; ge := None |}).
Proof. unfold failed. field_fails. Qed.

Lemma fails_required_float (conv : Conversions) (payload : pydict) (name : string) :
  failed (validate_field payload name (scalar (to_float conv)) None (ge_float 0))
  = violates conv payload
      (name, {| annotation := TFloat; nullable := false; required := true; ge := Some 0 |}).
Proof. unfold failed. field_fails. Qed.

Lemma fails_default_bool (conv : Conversions) (payload : pydict) (name : string) (b : bool) :
  failed (validate_field payload name (scalar (to_bool conv)) (Some b) unconstrained)
  = violates conv payload
      (name, {| annotation := TBool; nullable := false; required := false; ge := None |}).
Proof. unfold failed. field_fails. Qed.

Lemma fails_optional_int (conv : Conversions) (payload : pydict) (name : string) :
  failed (validate_field payload name (optional (scalar (to_int conv))) (Some None)
                         (ge_opt (ge_int 0)))
  = violates conv payload
      (name, {| annotation := TInt; nullable := true; required := false; ge := Some 0 |}).
Proof. unfold failed. field_fails. Qed.

Lemma fails_optional_list (conv : Conversions) (payload : pydict) (name : string) :
  failed (validate_field payload name (optional (list_of (to_list conv) (to_str conv)))
                         (Some None) unconstrained)
  = violates conv payload
      (name, {| annotation := TListStr; nullable := true; required := false; ge := None |}).
Proof.
  unfold failed, validate_field, violates, converts.
  cbn [fst snd annotation nullable required ge].
  destruct (payload !! name) as [v|]; [|reflexivity].
  assert (Hlist : match list_of (to_list conv) (to_str conv) v with
                  | inl _ => true
                  | inr _ => false
                  end
                  = match to_list conv v with
                    | Some l =>
                        negb (forallb (fun x => match to_str conv x with
                                                | Some _ => true
                                                | None => false
                                                end) l)
                    | None => true
                    end).
  { unfold list_of. destruct (to_list conv v) as [l|]; [|reflexivity].
    rewrite (proj2 (items_from_ok (to_str conv) l 0)).
    destruct (items_from (to_str conv) 0 l); reflexivity. }
  unfold optional, unconstrained.
  destruct v; try reflexivity;
    destruct (list_of (to_list conv) (to_str conv) _);
    destruct (to_list conv _) as [its|]; simpl in *; try congruence;
    destruct (forallb _ its); simpl in *; congruence.
Qed.

Ltac conversions_report :=
  intros;
  repeat first [ apply reports_scalar
               | apply reports_list_of
               | apply reports_optional; intros ].

Example broken_payload_report :
  map field_of (errors_of (Product_validate strict broken_payload))
  = ["title"; "price"; "category"; "protein_grams"; "tags"; "tags"]
  /\ map fst (List.filter (violates strict broken_payload) Product_fields)
     = ["title"; "price"; "category"; "protein_grams"; "tags"].
Proof. split; vm_compute; reflexivity. Qed.

(** ** The claims *)

(** C1 (the code departs from the claim).  A well-formed identifier that
    matches no stored document should be answered with 404.  On the store
    holding one product (identifier 0), [get_product] of the well-formed
    identifier [0000000000000000000000ff] raises the 404 inside its [try],
    catches it in its own [except Exception] and answers 500. *)
Theorem get_product_absent_answers_500 :
  ObjectId "0000000000000000000000ff" = Ok 255%N
  /\ List.filter (fun d => field_eq (VOid 255) (d !! "_id"))
                 (collection whey_store "product") = []
  /\ fst (get_product "0000000000000000000000ff" (Some whey_store))
     = Raise (HTTPException 500 (Str (HTTPException 404 (Msg "Product not found"))))
  /\ status (fst (get_product "0000000000000000000000ff" (Some whey_store))) = Some 500.
Proof. repeat split; vm_compute; reflexivity. Qed.




(** C3.  On a store that satisfies its invariant, posting a payload that
    validates to [product] answers with the next identifier [id], and
    [get_product id] then returns exactly the fields of [product] together
    with [id]; [id] differs from the string form of every identifier
    assigned before, in particular from those of the documents already in
    the collection. *)
Theorem create_then_get_roundtrip (conv : Conversions) (st : database)
    (body : pydict) (product : Product) :
  wf st = true ->
  Product_validate conv body = inr product ->
  exists id st',
    POST_api_products conv body (Some st) = (Ok {[ "id" := VStr id ]}, Some st')
    /\ get_product id (Some st')
       = (Ok (<["id" := VStr id]> (model_dump product)), Some st')
    /\ (forall n, (n < next_oid st)%N -> ObjectId_str n <> id)
    /\ (forall d, In d (collection st "product") ->
          exists n, doc_id d = Some n /\ ObjectId_str n <> id).
Proof.
  intros [Hlt Hok]%andb_true_iff Hval. apply N.ltb_lt in Hlt.
  assert (Hfresh : forall n, (n < next_oid st)%N ->
                             ObjectId_str n <> ObjectId_str (next_oid st)).
  { intros n Hn Heq. apply ObjectId_str_inj in Heq; lia. }
  exists (ObjectId_str (next_oid st)), (insert_one st "product" (model_dump product)).
  split; [|split; [|split]].
  - unfold POST_api_products. rewrite Hval. apply create_product_ok.
  - rewrite (get_product_decoded _ _ (next_oid st)) by (apply ObjectId_str_roundtrip, Hlt).
    rewrite collection_insert_one, List.filter_app.
    rewrite filter_id_unassigned by (apply ids_ok_collection, Hok).
    cbn [List.filter app]. rewrite lookup_insert_eq.
    cbn [field_eq value_eqb]. rewrite N.eqb_refl. cbn [andb].
    unfold try_except, convert_id, bind, lift, dict_pop.
    rewrite lookup_insert_eq. cbn [py_str fst snd ret].
    rewrite delete_insert_eq, delete_id by (apply model_dump_no_id).
    reflexivity.
  - exact Hfresh.
  - intros d Hd.
    destruct (ids_below_In _ _ d (ids_ok_collection st "product" Hok) Hd) as (n & Hn & Hlt').
    exists n. split; [exact Hn | apply Hfresh, Hlt'].
Qed.

Lemma create_then_get_roundtrip_witness :
  exists id st',
    POST_api_products strict cookies_payload (Some whey_store)
    = (Ok {[ "id" := VStr id ]}, Some st')
    /\ get_product id (Some st') = (Ok (<["id" := VStr id]> (model_dump cookies)), Some st')
    /\ (forall n, (n < next_oid whey_store)%N -> ObjectId_str n <> id)
    /\ (forall d, In d (collection whey_store "product") ->
          exists n, doc_id d = Some n /\ ObjectId_str n <> id).
Proof.
  apply (create_then_get_roundtrip strict whey_store cookies_payload cookies);
    vm_compute; reflexivity.
Defined.

(** C4.  In a product query with a category [c] and a term [t], the
    predicate of the filter is the category condition AND the free-text
    condition; more generally the predicate of any query is the conjunction
    of the predicates of its category alone and of its term alone; and
    without category and term the filter is empty and matches every
    document. *)
Theorem product_filter_conjunction :
  (forall c t cre,
      c <> "" -> t <> "" -> re_compile t "i" = Some cre ->
      exists p,
        compile_filter (product_filter (Some c) (Some t)) = Some p
        /\ forall d, p d = category_condition c d && term_condition cre d)
  /\ (forall category q p,
        compile_filter (product_filter category q) = Some p ->
        exists pc pq,
          compile_filter (product_filter category None) = Some pc
          /\ compile_filter (product_filter None q) = Some pq
          /\ forall d, p d = pc d && pq d)
  /\ (product_filter None None = []
      /\ exists p,
           compile_filter (product_filter None None) = Some p
           /\ forall d, p d = true).
Proof.
  split; [|split].
  - exact compile_product_filter.
  - intros category q p Hp. rewrite product_filter_split in Hp.
    apply compile_filter_app. exact Hp.
  - split; [reflexivity|]. eexists. split; [reflexivity|]. reflexivity.
Qed.

Lemma product_filter_conjunction_witness :
  exists p,
    compile_filter (product_filter (Some "powder") (Some "whey")) = Some p
    /\ forall d,
         p d = category_condition "powder" d
               && term_condition (true, map RLit (list_ascii_of_string "whey")) d.
Proof.
  apply (proj1 product_filter_conjunction "powder" "whey");
    [discriminate | discriminate | reflexivity].
Defined.

(** C10.  A category or a term given as the empty string adds no clause
    to the filter: the filter is the one of the query without that
    parameter, and with [category = ""] alone it is the empty filter, which
    matches every document; the handler answers as it does without the
    parameter. *)
Theorem empty_string_parameter_is_no_filter :
  (forall q, product_filter (Some "") q = product_filter None q)
  /\ (forall category, product_filter category (Some "") = product_filter category None)
  /\ product_filter (Some "") None = []
  /\ (exists p,
        compile_filter (product_filter (Some "") None) = Some p
        /\ forall d, p d = true)
  /\ (forall limit db,
        list_products (Some "") None limit db = list_products None None limit db)
  /\ (forall category limit db,
        list_products category (Some "") limit db = list_products category None limit db).
Proof.
  split; [|split; [|split; [|split; [|split]]]].
  - intros q. reflexivity.
  - intros [c|]; reflexivity.
  - reflexivity.
  - exists (fun _ => true). split; reflexivity.
  - intros limit db. reflexivity.
  - intros [c|] limit db; reflexivity.
Qed.




(** C6.  When the product collection holds a document, whatever it is,
    [seed_products] inserts nothing and leaves the store as it is; on an
    empty collection it inserts the four samples; and a second call in
    sequence leaves the store, hence the number of documents, as the first
    call left it. *)
Theorem seed_products_idempotent :
  (forall st,
      collection st "product" <> [] ->
      seed_products (Some st)
      = (Ok {[ "message" := VStr "Products already seeded" ]}, Some st))
  /\ (forall st,
        collection st "product" = [] ->
        count_products (snd (seed_products (Some st))) = 4%nat)
  /\ (forall db, snd (seed_products (snd (seed_products db))) = snd (seed_products db))
  /\ (forall db,
        count_products (snd (seed_products (snd (seed_products db))))
        = count_products (snd (seed_products db))).
Proof.
  assert (Hlen : forall st,
             collection st "product" = [] ->
             length (collection
                       (fold_left (fun st p => insert_one st "product" (model_dump p))
                                  sample_products st) "product") = 4%nat).
  { intros st Hempty. rewrite length_collection_fold_insert, Hempty. reflexivity. }
  assert (Hidem : forall db,
             snd (seed_products (snd (seed_products db))) = snd (seed_products db)).
  { intros [st|]; [|reflexivity].
    destruct (collection st "product") as [|d docs] eqn:Hcol.
    - rewrite (seed_products_empty st Hcol). cbn [snd].
      rewrite seed_products_nonempty; [reflexivity|].
      intros Hnil. specialize (Hlen st Hcol). rewrite Hnil in Hlen. discriminate Hlen.
    - assert (Hne : collection st "product" <> []) by (rewrite Hcol; discriminate).
      rewrite !(seed_products_nonempty st Hne). cbn [snd].
      rewrite (seed_products_nonempty st Hne). reflexivity. }
  split; [exact seed_products_nonempty|]. split; [|split].
  - intros st Hempty. rewrite (seed_products_empty st Hempty). cbn [snd count_products].
    apply Hlen, Hempty.
  - exact Hidem.
  - intros db. rewrite Hidem. reflexivity.
Qed.

Lemma seed_products_idempotent_witness :
  seed_products (Some whey_store)
  = (Ok {[ "message" := VStr "Products already seeded" ]}, Some whey_store).
Proof.
  apply (proj1 seed_products_idempotent whey_store). vm_compute. discriminate.
Defined.

(** C7.  For a limit [k >= 0], on a store that satisfies its invariant and
    a query within the fragment, [list_products] returns the first [k]
    matching documents: their number is the smaller of [k] and the number
    of matches, so at most [k] however many match.  Without a [limit]
    parameter the handler runs with 50. *)
Theorem list_products_limit :
  (forall st category q k p,
      0 <= k ->
      ids_ok st = true ->
      compile_filter (product_filter category q) = Some p ->
      exists r,
        list_products category q k (Some st) = (Ok r, Some st)
        /\ items r = map with_id (take (Z.to_nat k) (List.filter p (collection st "product")))
        /\ length (items r)
           = Nat.min (Z.to_nat k) (length (List.filter p (collection st "product")))
        /\ Z.of_nat (length (items r)) <= k)
  /\ (forall category q db,
        GET_api_products category q None db = list_products category q 50 db).
Proof.
  split; [|reflexivity].
  intros st category q k p Hk Hok Hp.
  exists {| items := map with_id (take (Z.to_nat k) (List.filter p (collection st "product"))) |}.
  assert (Hlen : length (map with_id (take (Z.to_nat k) (List.filter p (collection st "product"))))
                 = Nat.min (Z.to_nat k) (length (List.filter p (collection st "product")))).
  { rewrite length_map, length_take. reflexivity. }
  split; [|split; [reflexivity|split; [exact Hlen|]]].
  - unfold list_products, try_except. unfold bind at 1. unfold get_documents.
    rewrite Hp. unfold bind at 1. rewrite for_each_convert; [reflexivity|].
    intros d Hd%In_take%filter_In. destruct Hd as [Hd _].
    destruct (ids_below_In _ _ d (ids_ok_collection st "product" Hok) Hd) as (n & Hn & _).
    exists n. exact Hn.
  - cbn [items]. rewrite Hlen. lia.
Qed.

Lemma list_products_limit_witness :
  exists r,
    list_products None None 2 (Some seeded_store) = (Ok r, Some seeded_store)
    /\ items r
       = map with_id
           (take (Z.to_nat 2)
                 (List.filter (fun _ => true) (collection seeded_store "product")))
    /\ length (items r)
       = Nat.min (Z.to_nat 2)
                 (length (List.filter (fun _ => true) (collection seeded_store "product")))
    /\ Z.of_nat (length (items r)) <= 2.
Proof.
  apply (proj1 list_products_limit seeded_store None None 2 (fun _ => true));
    [lia | vm_compute; reflexivity | reflexivity].
Defined.

(** C8.  Validation of a product payload fails exactly when the payload
    violates the declared constraints of some field (required and missing,
    not of the declared type, or below the bound), and the report then
    names every violated field, and no other: with N fields violated, all
    N are named.  Validation is a function of the payload and leaves it
    as it is. *)
Theorem validation_reports_every_violation (conv : Conversions) (payload : pydict) :
  match Product_validate conv payload with
  | inl errors =>
      (forall name,
          In name (map field_of errors)
          <-> In name (map fst (List.filter (violates conv payload) Product_fields)))
      /\ List.filter (violates conv payload) Product_fields <> []
  | inr _ => List.filter (violates conv payload) Product_fields = []
  end.
Proof.
  assert (Hnames : forall name,
             In name (map field_of (errors_of (Product_validate conv payload)))
             <-> In name (map fst (List.filter (violates conv payload) Product_fields))).
  { intros name. unfold Product_validate, Product_fields.
    rewrite !errors_of_gather, !map_app, !in_app_iff, !In_filter_cons.
    rewrite !named_by_validate_field by conversions_report.
    rewrite !fails_required_str, !fails_optional_str, fails_required_float,
      fails_default_bool, !fails_optional_int, fails_optional_list.
    cbn [errors_of map List.filter In fst]. tauto. }
  assert (Hrep : reports (Product_validate conv payload)).
  { unfold Product_validate.
    repeat (apply reports_gather; [|apply reports_validate_field; conversions_report]).
    exact I. }
  destruct (Product_validate conv payload) as [errors|product];
    cbn [errors_of map] in Hnames; cbn [reports] in Hrep.
  - split; [exact Hnames|]. intros Hnil. rewrite Hnil in Hnames.
    destruct errors as [|e errors]; [tauto|].
    apply (Hnames (field_of e)). left. reflexivity.
  - destruct (List.filter (violates conv payload) Product_fields) as [|f bad];
      [reflexivity|].
    exfalso. apply (Hnames (fst f)). left. reflexivity.
Qed.

(** C9, counterexample.  A payload with an [_id] field is not rejected:
    the field is dropped by validation, the product is stored under the
    identifier the store assigns, and the answer is 200. *)
Lemma create_accepts_identifier_field :
  (<["_id" := VStr "abc"]> cookies_payload) !! "_id" = Some (VStr "abc")
  /\ POST_api_products strict (<["_id" := VStr "abc"]> cookies_payload) (Some empty_store)
     = (Ok {[ "id" := VStr "000000000000000000000000" ]},
        Some (insert_one empty_store "product" (model_dump cookies)))
  /\ status (fst (POST_api_products strict (<["_id" := VStr "abc"]> cookies_payload)
                                    (Some empty_store))) = Some 200.
Proof. repeat split; vm_compute; reflexivity. Qed.

Lemma Product_validate_ignores (conv : Conversions) (payload : pydict)
    (key : string) (v : value) :
  ~ In key (map fst Product_fields) ->
  Product_validate conv (<[key := v]> payload) = Product_validate conv payload.
Proof.
  intros Hkey. unfold Product_validate, validate_field.
  rewrite !lookup_insert_ne; [reflexivity|..];
    intros ->; apply Hkey; simpl; tauto.
Qed.

(** C9, amended.  An identifier field ([_id] or [id]) in a create payload
    is ignored: the payload is validated, answered and persisted exactly
    as the payload without that field. *)
Theorem create_ignores_identifier_field :
  (forall conv body v db,
      POST_api_products conv (<["_id" := v]> body) db = POST_api_products conv body db)
  /\ (forall conv body v db,
        POST_api_products conv (<["id" := v]> body) db = POST_api_products conv body db).
Proof.
  split; intros conv body v db; unfold POST_api_products;
    rewrite Product_validate_ignores; try reflexivity;
    simpl; intros H; repeat (destruct H as [H|H]; [discriminate H|]); exact H.
Qed.

(** ** Further properties of the handlers *)

Lemma try_except_internal_error {A} (m : M A) (db : option database) (causes : list exn) :
  (forall e, fst (m db) = Raise e -> In e causes) ->
  fails_only_with causes (fst (try_except m internal_error db)).
Proof.
  intros Hm. unfold try_except. destruct (m db) as [[a|e|] db']; simpl; try exact I.
  exists e. split; [apply Hm; reflexivity | reflexivity].
Qed.

Lemma try_except_read_only {A} (m : M A) : read_only m -> read_only (try_except m internal_error).
Proof.
  intros Hm db. unfold try_except. specialize (Hm db).
  destruct (m db) as [[a|e|] db']; simpl in *; exact Hm.
Qed.

Lemma convert_id_quiet (d : pydict) :
  read_only (fun db => if truthy (default VNone (d !! "_id")) then convert_id d db else ret d db)
  /\ never_raises
       (fun db => if truthy (default VNone (d !! "_id")) then convert_id d db else ret d db).
Proof.
  unfold read_only, never_raises, convert_id, bind, lift, dict_pop, ret.
  destruct (d !! "_id") as [v|]; simpl.
  - split; intros; destruct v; simpl;
      repeat match goal with |- context [if ?b then _ else _] => destruct b end;
      simpl; try reflexivity; discriminate.
  - split; intros; simpl; [reflexivity | discriminate].
Qed.

Lemma for_each_quiet {A B} (f : A -> M B) (l : list A) :
  (forall x, read_only (f x)) -> (forall x, never_raises (f x)) ->
  read_only (for_each f l) /\ never_raises (for_each f l).
Proof.
  intros Hro Hnr. induction l as [|x l [IHro IHnr]].
  - split; intros db; intros; simpl; [reflexivity | discriminate].
  - split; intros db; intros; cbn [for_each]; unfold bind;
      specialize (Hro x db); specialize (Hnr x db);
      destruct (f x db) as [[y|e'|] db1]; simpl in *; subst;
      try (exfalso; apply (Hnr e'); reflexivity); try reflexivity; try discriminate;
      specialize (IHro db); specialize (IHnr db);
      destruct (for_each f l db) as [[ys|e'|] db2]; simpl in *; subst;
      try (exfalso; apply (IHnr e'); reflexivity); try reflexivity; discriminate.
Qed.

Lemma take_1_filter_In {A} (p : A -> bool) (l : list A) (x : A) (rest : list A) :
  take 1 (List.filter p l) = x :: rest -> In x l /\ p x = true.
Proof.
  intros Htake. apply filter_In. apply (In_take 1). rewrite Htake. left. reflexivity.
Qed.

(** X1.  [get_product] fails only with status 500, and for one of three
    reasons: the identifier does not decode, there is no connection, or
    the handler's own 404 for a missing document; it never answers 404. *)
Theorem get_product_failure_causes (product_id : string) (db : option database) :
  fails_only_with
    [InvalidId product_id; StorageUnavailable;
     HTTPException 404 (Msg "Product not found")]
    (fst (get_product product_id db))
  /\ status (fst (get_product product_id db)) <> Some 404.
Proof.
  assert (Hcauses : fails_only_with
            [InvalidId product_id; StorageUnavailable;
             HTTPException 404 (Msg "Product not found")]
            (fst (get_product product_id db))).
  { unfold get_product. apply try_except_internal_error. intros e.
    unfold bind, lift, get_documents.
    destruct (ObjectId_cases product_id) as [[n ->] | [-> | ->]]; simpl;
      [|intros [= <-]; left; reflexivity | discriminate].
    destruct db as [st|]; simpl; [|intros [= <-]; right; left; reflexivity].
    destruct (take (Z.to_nat 1) _) as [|d docs] eqn:Hdocs; simpl;
      [intros [= <-]; right; right; left; reflexivity|].
    apply take_1_filter_In in Hdocs as [_ Hd].
    unfold convert_id, bind, lift, dict_pop.
    destruct (d !! "_id") as [v|]; [|discriminate Hd].
    destruct v; simpl; discriminate. }
  split; [exact Hcauses|].
  destruct (fst (get_product product_id db)) as [d|e|]; simpl; try discriminate.
  destruct Hcauses as (cause & _ & ->). discriminate.
Qed.

Lemma create_document_connected (st : database) (name : string) (data : pydict) :
  data !! "_id" = None -> data !! "id" = None ->
  create_document name data (Some st)
  = (Ok (ObjectId_str (next_oid st)), Some (insert_one st name data)).
Proof.
  intros H1 H2. unfold create_document, has_identifier_field. rewrite H1, H2. reflexivity.
Qed.

Lemma Order_dump_no_id (o : Order.t) :
  Order_dump o !! "_id" = None /\ Order_dump o !! "id" = None.
Proof. split; reflexivity. Qed.

Lemma create_order_ok (st : database) (o : Order.t) :
  create_order o (Some st)
  = (Ok {[ "id" := VStr (ObjectId_str (next_oid st)) ]},
     Some (insert_one st "order" (Order_dump o))).
Proof.
  unfold create_order, try_except, bind.
  rewrite create_document_connected by apply Order_dump_no_id. reflexivity.
Qed.

Lemma for_each_convert_quiet (docs : list pydict) :
  read_only
    (for_each (fun d => if truthy (default VNone (d !! "_id")) then convert_id d else ret d)
              docs)
  /\ never_raises
       (for_each (fun d => if truthy (default VNone (d !! "_id")) then convert_id d else ret d)
                 docs).
Proof.
  apply for_each_quiet; intros d; destruct (convert_id_quiet d) as [Hro Hnr].
  - intros db. specialize (Hro db). simpl in Hro.
    destruct (truthy (default VNone (d !! "_id"))); exact Hro.
  - intros db e. specialize (Hnr db e). simpl in Hnr.
    destruct (truthy (default VNone (d !! "_id"))); exact Hnr.
Qed.

Lemma reading_handlers_quiet :
  (forall product_id, read_only (get_product product_id))
  /\ (forall category q limit, read_only (list_products category q limit)).
Proof.
  split.
  - intros product_id. unfold get_product. apply try_except_read_only. intros db.
    unfold bind, lift, get_documents.
    destruct (ObjectId product_id) as [n| |]; simpl; try reflexivity.
    destruct db as [st|]; simpl; [|reflexivity].
    destruct (take (Z.to_nat 1) _) as [|d docs]; simpl; [reflexivity|].
    unfold convert_id, bind, lift, dict_pop.
    destruct (d !! "_id") as [v|]; simpl; [|reflexivity].
    destruct (py_str v); reflexivity.
  - intros category q limit. unfold list_products. apply try_except_read_only. intros db.
    unfold bind, get_documents.
    destruct db as [st|]; simpl; [|reflexivity].
    destruct (compile_filter _) as [p|]; simpl; [|reflexivity].
    destruct (for_each_convert_quiet
                (take (Z.to_nat limit) (List.filter p (collection st "product"))))
      as [Hro _].
    specialize (Hro (Some st)).
    destruct (for_each _ _ (Some st)) as [[docs|e'|] db']; simpl in *; exact Hro.
Qed.

(** X3.  The reading handlers, [get_product], [list_products] and
    [test_database], never change the store, whatever they are given and
    whether they succeed or fail. *)
Theorem reading_handlers_write_nothing :
  (forall product_id, read_only (get_product product_id))
  /\ (forall category q limit, read_only (list_products category q limit))
  /\ (forall env, read_only (test_database env)).
Proof.
  destruct reading_handlers_quiet as (Hget & Hlist).
  split; [exact Hget|]. split; [exact Hlist|]. intros env db. reflexivity.
Qed.

(** ** Stored documents and their identifiers *)

Lemma convert_id_with_id (d : pydict) (n : N) (db : option database) :
  doc_id d = Some n -> convert_id d db = (Ok (with_id d), db).
Proof.
  intros Hn. unfold with_id. rewrite Hn. unfold doc_id in Hn.
  destruct (d !! "_id") as [v|] eqn:Hv; [|discriminate Hn].
  destruct v as [ | | | | | | | m]; try discriminate Hn. injection Hn as ->.
  unfold convert_id, bind, lift, dict_pop. rewrite Hv. reflexivity.
Qed.

Lemma field_eq_oid (n : N) (d : pydict) (m : N) :
  doc_id d = Some m -> field_eq (VOid n) (d !! "_id") = (n =? m)%N.
Proof.
  unfold doc_id. destruct (d !! "_id") as [v|]; [|discriminate].
  destruct v; try discriminate. intros [= ->]. reflexivity.
Qed.

Lemma ids_unique_In (docs : list pydict) (d : pydict) :
  ids_unique docs = true -> In d docs -> exists n, doc_id d = Some n /\ (n < 2 ^ 96)%N.
Proof.
  induction docs as [|d0 docs IH]; intros Hids Hin; [destruct Hin|].
  simpl in Hids. destruct (doc_id d0) as [m|] eqn:Hm; [|discriminate].
  apply andb_true_iff in Hids as [[Hlt _]%andb_true_iff Hrest].
  destruct Hin as [<- | Hin]; [|exact (IH Hrest Hin)].
  exists m. split; [exact Hm | apply N.ltb_lt, Hlt].
Qed.

Lemma has_id_In (n : N) (docs : list pydict) (d : pydict) :
  In d docs -> doc_id d = Some n -> existsb (has_id n) docs = true.
Proof.
  intros Hin Hn. apply existsb_exists. exists d. split; [exact Hin|].
  unfold has_id. rewrite Hn. apply N.eqb_refl.
Qed.

Lemma filter_by_id_none (n : N) (docs : list pydict) :
  ids_unique docs = true -> existsb (has_id n) docs = false ->
  List.filter (fun d => field_eq (VOid n) (d !! "_id") && true) docs = [].
Proof.
  induction docs as [|d docs IH]; intros Hids Hnone; [reflexivity|].
  simpl in Hids. destruct (doc_id d) as [m|] eqn:Hm; [|discriminate].
  apply andb_true_iff in Hids as [_ Hrest].
  cbn [existsb] in Hnone. apply orb_false_iff in Hnone as [Hd Hnone].
  unfold has_id in Hd. rewrite Hm in Hd.
  cbn [List.filter]. rewrite (field_eq_oid n d m Hm), Hd. simpl.
  exact (IH Hrest Hnone).
Qed.

(** With distinct identifiers, a query by identifier selects the document
    that carries it and no other. *)
Lemma filter_by_id_unique (n : N) (docs : list pydict) (d : pydict) :
  ids_unique docs = true -> In d docs -> doc_id d = Some n ->
  List.filter (fun d => field_eq (VOid n) (d !! "_id") && true) docs = [d].
Proof.
  induction docs as [|d0 docs IH]; intros Hids Hin Hn; [destruct Hin|].
  simpl in Hids. destruct (doc_id d0) as [m|] eqn:Hm; [|discriminate].
  apply andb_true_iff in Hids as [[_ Hfresh%negb_true_iff]%andb_true_iff Hrest].
  cbn [List.filter]. rewrite (field_eq_oid n d0 m Hm).
  destruct (N.eqb_spec n m) as [->|Hne]; simpl.
  - rewrite (filter_by_id_none m docs Hrest Hfresh).
    destruct Hin as [<- | Hin]; [reflexivity|].
    rewrite (has_id_In m docs d Hin Hn) in Hfresh. discriminate Hfresh.
  - destruct Hin as [<- | Hin]; [congruence|].
    exact (IH Hrest Hin Hn).
Qed.

Lemma get_product_stored (st : database) (d : pydict) (n : N) :
  ids_unique (collection st "product") = true ->
  In d (collection st "product") ->
  doc_id d = Some n ->
  get_product (ObjectId_str n) (Some st) = (Ok (with_id d), Some st).
Proof.
  intros Hids Hin Hn.
  destruct (ids_unique_In _ d Hids Hin) as (n' & Hn' & Hlt).
  rewrite Hn in Hn'. injection Hn' as <-.
  rewrite (get_product_decoded st _ n) by (apply ObjectId_str_roundtrip; exact Hlt).
  rewrite (filter_by_id_unique n _ d Hids Hin Hn).
  unfold try_except. rewrite (convert_id_with_id d n _ Hn). reflexivity.
Qed.

Lemma list_products_with_ids (st : database) (category q : option string) (limit : Z)
    (p : pydict -> bool) :
  (forall d, In d (collection st "product") -> exists n, doc_id d = Some n) ->
  compile_filter (product_filter category q) = Some p ->
  list_products category q limit (Some st)
  = (Ok {| items := map with_id
                      (take (Z.to_nat limit) (List.filter p (collection st "product"))) |},
     Some st).
Proof.
  intros Hids Hp. unfold list_products, try_except. unfold bind at 1. unfold get_documents.
  rewrite Hp. unfold bind at 1. rewrite for_each_convert; [reflexivity|].
  intros d Hd%In_take%filter_In. destruct Hd as [Hd _]. exact (Hids d Hd).
Qed.

Lemma list_products_connected (st : database) (category q : option string) (limit : Z)
    (p : pydict -> bool) :
  ids_ok st = true ->
  compile_filter (product_filter category q) = Some p ->
  list_products category q limit (Some st)
  = (Ok {| items := map with_id
                      (take (Z.to_nat limit) (List.filter p (collection st "product"))) |},
     Some st).
Proof.
  intros Hok Hp. unfold list_products, try_except. unfold bind at 1. unfold get_documents.
  rewrite Hp. unfold bind at 1. rewrite for_each_convert; [reflexivity|].
  intros d Hd%In_take%filter_In. destruct Hd as [Hd _].
  destruct (ids_below_In _ _ d (ids_ok_collection st "product" Hok) Hd) as (n & Hn & _).
  exists n. exact Hn.
Qed.

(** X2.  Without a connection, [create_product], [list_products],
    [seed_products] and [create_order] each answer 500 for the store's
    error and leave the handle as it is.  On a connected store
    [create_product], [seed_products] and [create_order] answer, and so
    does [list_products] for every query whose filter lies in the
    described fragment of [$regex], on a store whose documents carry
    assigned identifiers. *)
Theorem handlers_fail_iff_disconnected :
  (forall product,
      fails_disconnected (create_product product)
      /\ forall st, answers (fst (create_product product (Some st))) = true)
  /\ (forall category q limit,
        fails_disconnected (list_products category q limit)
        /\ forall st,
             ids_ok st = true ->
             described (product_filter category q) = true ->
             answers (fst (list_products category q limit (Some st))) = true)
  /\ (fails_disconnected seed_products
      /\ forall st, answers (fst (seed_products (Some st))) = true)
  /\ (forall order,
        fails_disconnected (create_order order)
        /\ forall st, answers (fst (create_order order (Some st))) = true).
Proof.
  split; [|split; [|split]].
  - intros product. split; [reflexivity|].
    intros st. rewrite create_product_ok. reflexivity.
  - intros category q limit. split; [reflexivity|].
    intros st Hok Hp. unfold described in Hp.
    destruct (compile_filter (product_filter category q)) as [p|] eqn:Hc;
      [|discriminate Hp].
    rewrite (list_products_connected st category q limit p Hok Hc). reflexivity.
  - split; [reflexivity|]. intros st.
    destruct (collection st "product") as [|d docs] eqn:Hcol.
    + rewrite (seed_products_empty st Hcol). reflexivity.
    + rewrite seed_products_nonempty by (rewrite Hcol; discriminate). reflexivity.
  - intros order. split; [reflexivity|].
    intros st. rewrite create_order_ok. reflexivity.
Qed.

Lemma handlers_fail_iff_disconnected_witness :
  answers (fst (list_products (Some "powder") (Some "w.ey") 50 (Some whey_store))) = true.
Proof.
  apply (proj2 (proj1 (proj2 handlers_fail_iff_disconnected)
                  (Some "powder") (Some "w.ey") 50) whey_store);
    vm_compute; reflexivity.
Defined.

(** X4.  On a store whose products carry identifiers of 12 bytes, no two
    of them the same, every stored product is found under the string form
    of its identifier: [get_product] returns that document, with [_id]
    replaced by [id]. *)
Theorem get_product_finds_stored (st : database) (d : pydict) (n : N) :
  ids_unique (collection st "product") = true ->
  In d (collection st "product") ->
  doc_id d = Some n ->
  get_product (ObjectId_str n) (Some st) = (Ok (with_id d), Some st).
Proof. exact (get_product_stored st d n). Qed.

Lemma get_product_finds_stored_witness :
  get_product (ObjectId_str 3) (Some shuffled_store)
  = (Ok (with_id (product_doc cookies 3)), Some shuffled_store).
Proof.
  apply (get_product_finds_stored shuffled_store (product_doc cookies 3) 3).
  - vm_compute. reflexivity.
  - right. left. reflexivity.
  - reflexivity.
Defined.

(** X5.  On a store whose products carry identifiers of 12 bytes, no two
    of them the same, every item that [list_products] returns has an [id]
    and no [_id], and [get_product] of that [id] returns the very same
    item. *)
Theorem listed_products_can_be_fetched (st : database) (category q : option string)
    (limit : Z) (r : Items) (db' : option database) (item : pydict) :
  ids_unique (collection st "product") = true ->
  list_products category q limit (Some st) = (Ok r, db') ->
  In item (items r) ->
  item !! "_id" = None
  /\ exists id,
       item !! "id" = Some (VStr id)
       /\ get_product id (Some st) = (Ok item, Some st).
Proof.
  intros Hids Hlist Hitem.
  assert (Hall : forall d, In d (collection st "product") -> exists n, doc_id d = Some n).
  { intros d Hd. destruct (ids_unique_In _ d Hids Hd) as (n & Hn & _). exists n. exact Hn. }
  destruct (compile_filter (product_filter category q)) as [p|] eqn:Hp.
  - rewrite (list_products_with_ids st category q limit p Hall Hp) in Hlist.
    injection Hlist as <- _. cbn [items] in Hitem.
    apply in_map_iff in Hitem as (d & <- & Hd%In_take%filter_In).
    destruct Hd as [Hd _]. destruct (Hall d Hd) as (n & Hn).
    split.
    + unfold with_id. rewrite Hn. rewrite lookup_insert_ne by discriminate.
      apply lookup_delete_eq.
    + exists (ObjectId_str n). split.
      * unfold with_id. rewrite Hn. apply lookup_insert_eq.
      * apply get_product_stored; assumption.
  - unfold list_products, try_except, bind, get_documents in Hlist.
    rewrite Hp in Hlist. discriminate Hlist.
Qed.

Lemma listed_products_can_be_fetched_witness :
  with_id (product_doc cookies 3) !! "_id" = None
  /\ exists id,
       with_id (product_doc cookies 3) !! "id" = Some (VStr id)
       /\ get_product id (Some shuffled_store)
          = (Ok (with_id (product_doc cookies 3)), Some shuffled_store).
Proof.
  apply (listed_products_can_be_fetched shuffled_store (Some "snack") None 50
           {| items := [with_id (product_doc cookies 3)] |}
           (Some shuffled_store)).
  - vm_compute. reflexivity.
  - vm_compute. reflexivity.
  - left. reflexivity.
Defined.

(** *** The identifier in the answer *)

Lemma hex_value_lower (c : ascii) (x : N) :
  hex_value c = Some x -> (x < 16)%N /\ hex_digit x = lower c.
Proof.
  destruct c as [[] [] [] [] [] [] [] []]; vm_compute; intros [= <-];
    split; reflexivity.
Qed.

Lemma hexlify_cons (d : nat) :
  forall x v,
    (x < 16)%N -> (v < 16 ^ N.of_nat d)%N ->
    hexlify (S d) (x * 16 ^ N.of_nat d + v) = hex_digit x :: hexlify d v.
Proof.
  induction d as [|d IH]; intros x v Hx Hv.
  - simpl in Hv. assert (v = 0%N) as -> by lia. cbn [hexlify N.of_nat app].
    rewrite N.pow_0_r, N.mul_1_r, N.add_0_r. rewrite N.mod_small by lia. reflexivity.
  - rewrite Nat2N.inj_succ, N.pow_succ_r' in *.
    change (hexlify (S (S d)) (x * (16 * 16 ^ N.of_nat d) + v))
      with (hexlify (S d) ((x * (16 * 16 ^ N.of_nat d) + v) / 16)
            ++ [hex_digit ((x * (16 * 16 ^ N.of_nat d) + v) mod 16)])%list.
    replace (x * (16 * 16 ^ N.of_nat d) + v)%N
      with (v + (x * 16 ^ N.of_nat d) * 16)%N by lia.
    rewrite N.div_add, N.Div0.mod_add by lia.
    replace (v / 16 + x * 16 ^ N.of_nat d)%N with (x * 16 ^ N.of_nat d + v / 16)%N by lia.
    rewrite IH; [reflexivity | exact Hx|].
    apply N.Div0.div_lt_upper_bound. lia.
Qed.

(** Decoding a string yields a number whose string form is the string
    itself in lower case. *)
Lemma unhexlify_from_lower (l : list ascii) :
  forall acc n,
    unhexlify_from acc l = Some n ->
    exists v,
      n = (acc * 16 ^ N.of_nat (length l) + v)%N
      /\ (v < 16 ^ N.of_nat (length l))%N
      /\ hexlify (length l) v = map lower l.
Proof.
  induction l as [|c l IH]; intros acc n; simpl.
  - intros [= <-]. exists 0%N. split; [lia|]. split; [lia | reflexivity].
  - destruct (hex_value c) as [x|] eqn:Hc; [|discriminate].
    destruct (hex_value_lower c x Hc) as [Hx Hdigit].
    intros (v & -> & Hv & Hhex)%IH.
    exists (x * 16 ^ N.of_nat (length l) + v)%N.
    rewrite Nat2N.inj_succ, N.pow_succ_r'. split; [lia|]. split; [nia|].
    change (hexlify (S (length l)) (x * 16 ^ N.of_nat (length l) + v)
            = lower c :: map lower l).
    rewrite hexlify_cons by assumption. congruence.
Qed.

Lemma ObjectId_str_decoded (s : string) (n : N) :
  ObjectId s = Ok n -> ObjectId_str n = lowercase s /\ (n < 2 ^ 96)%N.
Proof.
  unfold ObjectId, ObjectId_str, lowercase, unhexlify.
  destruct (Nat.eqb_spec (String.length s) 24) as [Hlen|]; [|discriminate].
  destruct (fromhex (list_ascii_of_string s)); [|discriminate].
  destruct (unhexlify_from 0 (list_ascii_of_string s)) as [m|] eqn:Hm; [|discriminate].
  intros [= ->].
  assert (Hlen' : length (list_ascii_of_string s) = 24%nat).
  { rewrite <- Hlen, <- (length_string_of_list_ascii (list_ascii_of_string s)),
      string_of_list_ascii_of_string. reflexivity. }
  apply unhexlify_from_lower in Hm as (v & -> & Hv & Hhex).
  rewrite Hlen' in *. split; [|simpl in *; lia].
  f_equal. rewrite N.mul_0_l, N.add_0_l. exact Hhex.
Qed.

(** X6.  When [get_product] returns a document, its [id] is the requested
    identifier in lower case: identifiers are accepted in either case and
    answered in one form. *)
Theorem get_product_answers_lowercase_id (product_id : string) (db db' : option database)
    (d : pydict) :
  get_product product_id db = (Ok d, db') ->
  d !! "id" = Some (VStr (lowercase product_id)).
Proof.
  unfold get_product, try_except, bind, lift, get_documents.
  destruct (ObjectId product_id) as [n| |] eqn:Hid; simpl; try discriminate.
  destruct (ObjectId_str_decoded _ _ Hid) as [<- _].
  destruct db as [st|]; simpl; [|discriminate].
  destruct (take (Z.to_nat 1) _) as [|d0 docs] eqn:Hdocs; simpl; [discriminate|].
  apply take_1_filter_In in Hdocs as [_ Hd0].
  unfold convert_id, bind, lift, dict_pop.
  destruct (d0 !! "_id") as [v|]; [|discriminate Hd0].
  destruct v as [ | | | | s | | | m]; simpl; try discriminate;
    simpl in Hd0; try discriminate Hd0.
  rewrite andb_true_r in Hd0. apply N.eqb_eq in Hd0 as <-.
  intros [= <- _]. apply lookup_insert_eq.
Qed.

Lemma get_product_answers_lowercase_id_witness :
  (with_id (<["_id" := VOid 10]> (model_dump whey))) !! "id"
  = Some (VStr (lowercase "00000000000000000000000A")).
Proof.
  apply (get_product_answers_lowercase_id "00000000000000000000000A"
           (Some {| collections := {[ "product" := [<["_id" := VOid 10]> (model_dump whey)] ]};
                    next_oid := 11 |})
           (Some {| collections := {[ "product" := [<["_id" := VOid 10]> (model_dump whey)] ]};
                    next_oid := 11 |})).
  vm_compute. reflexivity.
Defined.

Lemma with_id_inserted (n : N) (data : pydict) :
  data !! "_id" = None ->
  with_id (<["_id" := VOid n]> data) = <["id" := VStr (ObjectId_str n)]> data.
Proof.
  intros Hdata. unfold with_id. rewrite doc_id_insert, delete_insert_eq, delete_id by exact Hdata.
  reflexivity.
Qed.

(** X7.  After [create_product], a listing without filter and with a
    limit above the number of products returns the products listed before,
    in the same order, followed by the new product under the identifier
    that [create_product] answered. *)
Theorem created_product_is_listed_last (st : database) (product : Product) (limit : Z) :
  ids_ok st = true ->
  Z.of_nat (length (collection st "product")) < limit ->
  fst (create_product product (Some st))
  = Ok {[ "id" := VStr (ObjectId_str (next_oid st)) ]}
  /\ fst (list_products None None limit (snd (create_product product (Some st))))
     = Ok {| items :=
               (map with_id (collection st "product")
                ++ [<["id" := VStr (ObjectId_str (next_oid st))]> (model_dump product)])%list |}.
Proof.
  intros Hok Hlimit. rewrite create_product_ok. cbn [fst snd]. split; [reflexivity|].
  rewrite (list_products_connected _ None None limit (fun _ => true))
    by (apply ids_ok_insert_one, Hok || reflexivity).
  cbn [fst]. rewrite collection_insert_one, filter_all.
  rewrite take_ge by (rewrite length_app; simpl; lia).
  rewrite map_app. cbn [map].
  rewrite with_id_inserted by apply model_dump_no_id. reflexivity.
Qed.

Lemma created_product_is_listed_last_witness :
  fst (create_product cookies (Some whey_store))
  = Ok {[ "id" := VStr (ObjectId_str (next_oid whey_store)) ]}
  /\ fst (list_products None None 50 (snd (create_product cookies (Some whey_store))))
     = Ok {| items :=
               (map with_id (collection whey_store "product")
                ++ [<["id" := VStr (ObjectId_str (next_oid whey_store))]>
                      (model_dump cookies)])%list |}.
Proof.
  apply (created_product_is_listed_last whey_store cookies 50).
  - vm_compute. reflexivity.
  - vm_compute. reflexivity.
Defined.

(** ** Further properties of the Product model *)

Lemma gather_inr {A B} (f : list error + (A -> B)) (x : list error + A) (y : B) :
  f <*> x = inr y -> exists f' x', f = inr f' /\ x = inr x' /\ y = f' x'.
Proof.
  destruct f as [e1|f'], x as [e2|x']; simpl; try discriminate.
  intros [= <-]. exists f', x'. repeat split.
Qed.

(** A validated model holds what each of its field validators returned. *)
Lemma Product_validate_inr (conv : Conversions) (payload : pydict) (p : Product) :
  Product_validate conv payload = inr p ->
  validate_field payload "title" (scalar (to_str conv)) None unconstrained = inr (title p)
  /\ validate_field payload "description" (optional (scalar (to_str conv))) (Some None)
       unconstrained = inr (description p)
  /\ validate_field payload "price" (scalar (to_float conv)) None (ge_float 0) = inr (price p)
  /\ validate_field payload "category" (scalar (to_str conv)) None unconstrained
     = inr (category p)
  /\ validate_field payload "in_stock" (scalar (to_bool conv)) (Some true) unconstrained
     = inr (in_stock p)
  /\ validate_field payload "image" (optional (scalar (to_str conv))) (Some None)
       unconstrained = inr (image p)
  /\ validate_field payload "protein_grams" (optional (scalar (to_int conv))) (Some None)
       (ge_opt (ge_int 0)) = inr (protein_grams p)
  /\ validate_field payload "calories" (optional (scalar (to_int conv))) (Some None)
       (ge_opt (ge_int 0)) = inr (calories p)
  /\ validate_field payload "tags" (optional (list_of (to_list conv) (to_str conv)))
       (Some None) unconstrained = inr (tags p).
Proof.
  unfold Product_validate. intros H.
  apply gather_inr in H as (f9 & x9 & H & H9 & ->).
  apply gather_inr in H as (f8 & x8 & H & H8 & ->).
  apply gather_inr in H as (f7 & x7 & H & H7 & ->).
  apply gather_inr in H as (f6 & x6 & H & H6 & ->).
  apply gather_inr in H as (f5 & x5 & H & H5 & ->).
  apply gather_inr in H as (f4 & x4 & H & H4 & ->).
  apply gather_inr in H as (f3 & x3 & H & H3 & ->).
  apply gather_inr in H as (f2 & x2 & H & H2 & ->).
  apply gather_inr in H as (f1 & x1 & H & H1 & ->).
  injection H as <-. cbn. repeat split; assumption.
Qed.

Lemma validate_field_inr {T} (payload : pydict) (name : string)
    (conv : value -> list complaint + T) (dflt : option T) (constraint : T -> bool) (x : T) :
  validate_field payload name conv dflt constraint = inr x ->
  match payload !! name with
  | Some v => conv v = inr x /\ constraint x = true
  | None => dflt = Some x
  end.
Proof.
  unfold validate_field. destruct (payload !! name) as [v|].
  - destruct (conv v) as [es|y]; [discriminate|].
    destruct (constraint y) eqn:Hy; [|discriminate]. intros [= <-]. split; [reflexivity | exact Hy].
  - destruct dflt; [|discriminate]. intros [= <-]. reflexivity.
Qed.

Lemma validated_product_facts (conv : Conversions) (payload : pydict) (p : Product) :
  Product_validate conv payload = inr p ->
  Product_ok p = true
  /\ (is_Some (payload !! "title") /\ is_Some (payload !! "price")
      /\ is_Some (payload !! "category"))
  /\ (payload !! "description" = None -> description p = None)
  /\ (payload !! "in_stock" = None -> in_stock p = true)
  /\ (payload !! "image" = None -> image p = None)
  /\ (payload !! "protein_grams" = None -> protein_grams p = None)
  /\ (payload !! "calories" = None -> calories p = None)
  /\ (payload !! "tags" = None -> tags p = None).
Proof.
  intros (H1 & H2 & H3 & H4 & H5 & H6 & H7 & H8 & H9)%Product_validate_inr.
  apply validate_field_inr in H1, H2, H3, H4, H5, H6, H7, H8, H9.
  split; [|split; [split; [|split]|]].
  - unfold Product_ok. apply andb_true_iff. split; [apply andb_true_iff; split|].
    + destruct (payload !! "price"); [apply H3 | discriminate H3].
    + destruct (payload !! "protein_grams"); [apply H7 | injection H7 as <-; reflexivity].
    + destruct (payload !! "calories"); [apply H8 | injection H8 as <-; reflexivity].
  - destruct (payload !! "title"); [eexists; reflexivity | discriminate H1].
  - destruct (payload !! "price"); [eexists; reflexivity | discriminate H3].
  - destruct (payload !! "category"); [eexists; reflexivity | discriminate H4].
  - split; [|split; [|split; [|split; [|split]]]]; intros Hnone.
    + rewrite Hnone in H2. congruence.
    + rewrite Hnone in H5. congruence.
    + rewrite Hnone in H6. congruence.
    + rewrite Hnone in H7. congruence.
    + rewrite Hnone in H8. congruence.
    + rewrite Hnone in H9. congruence.
Qed.

Lemma validated_product_sound (conv : Conversions) (payload : pydict) (p : Product) :
  Product_validate conv payload = inr p -> Product_ok p = true.
Proof. intros H. apply (validated_product_facts conv payload p H). Qed.

(** X9.  Whatever the conversion table, a payload that validates has the
    three required fields, the resulting product satisfies the declared
    bounds (price, protein and calories not negative), and each optional
    field left out of the payload has its declared default. *)
Theorem validated_product_is_sound (conv : Conversions) (payload : pydict) (p : Product) :
  Product_validate conv payload = inr p ->
  Product_ok p = true
  /\ (is_Some (payload !! "title") /\ is_Some (payload !! "price")
      /\ is_Some (payload !! "category"))
  /\ (payload !! "description" = None -> description p = None)
  /\ (payload !! "in_stock" = None -> in_stock p = true)
  /\ (payload !! "image" = None -> image p = None)
  /\ (payload !! "protein_grams" = None -> protein_grams p = None)
  /\ (payload !! "calories" = None -> calories p = None)
  /\ (payload !! "tags" = None -> tags p = None).
Proof. exact (validated_product_facts conv payload p). Qed.

Lemma validated_product_is_sound_witness :
  Product_ok cookies = true
  /\ (is_Some (cookies_payload !! "title") /\ is_Some (cookies_payload !! "price")
      /\ is_Some (cookies_payload !! "category"))
  /\ (cookies_payload !! "description" = None -> description cookies = None)
  /\ (cookies_payload !! "in_stock" = None -> in_stock cookies = true)
  /\ (cookies_payload !! "image" = None -> image cookies = None)
  /\ (cookies_payload !! "protein_grams" = None -> protein_grams cookies = None)
  /\ (cookies_payload !! "calories" = None -> calories cookies = None)
  /\ (cookies_payload !! "tags" = None -> tags cookies = None).
Proof.
  apply (validated_product_is_sound strict cookies_payload cookies). vm_compute. reflexivity.
Defined.

Lemma model_dump_lookup (p : Product) :
  model_dump p !! "title" = Some (VStr (title p))
  /\ model_dump p !! "description" = Some (opt_value VStr (description p))
  /\ model_dump p !! "price" = Some (VFloat (price p))
  /\ model_dump p !! "category" = Some (VStr (category p))
  /\ model_dump p !! "in_stock" = Some (VBool (in_stock p))
  /\ model_dump p !! "image" = Some (opt_value VStr (image p))
  /\ model_dump p !! "protein_grams" = Some (opt_value VInt (protein_grams p))
  /\ model_dump p !! "calories" = Some (opt_value VInt (calories p))
  /\ model_dump p !! "tags" = Some (opt_value (fun l => VList (map VStr l)) (tags p)).
Proof. repeat split; reflexivity. Qed.

Lemma items_from_strings (l : list string) :
  forall i, items_from (to_str strict) i (map VStr l) = inr l.
Proof.
  induction l as [|s l IH]; intros i; simpl; [reflexivity|]. rewrite IH. reflexivity.
Qed.

(** X10.  Dumping a product and validating the dump, with the conversions
    that accept exactly the declared types, gives the product back when it
    satisfies the declared bounds, and fails when it does not. *)
Theorem model_dump_validate_roundtrip (p : Product) :
  Product_validate strict (model_dump p)
  = (if Product_ok p then inr p
     else inl (errors_of (Product_validate strict (model_dump p))))
  /\ failed (Product_validate strict (model_dump p)) = negb (Product_ok p).
Proof.
  assert (H : if Product_ok p then Product_validate strict (model_dump p) = inr p
              else failed (Product_validate strict (model_dump p)) = true).
  { unfold Product_validate, validate_field, Product_ok.
    destruct (model_dump_lookup p) as (-> & -> & -> & -> & -> & -> & -> & -> & ->).
    destruct p as [t d pr c s im pg ca tg]. cbn [title description price category in_stock
      image protein_grams calories tags].
    unfold ge_float. change (inject_Z 0) with 0%Q.
    destruct d, im, pg as [pg|], ca as [ca|], tg as [tg|];
      cbn [opt_value optional scalar list_of strict to_str to_int to_float to_bool to_list
           ge_opt unconstrained];
      rewrite ?items_from_strings;
      destruct (Qle_bool 0 pr); cbn [andb gather ge_opt];
      try destruct (ge_int 0 pg); try destruct (ge_int 0 ca); reflexivity. }
  destruct (Product_ok p).
  - rewrite H. split; reflexivity.
  - destruct (Product_validate strict (model_dump p)); [split; reflexivity | discriminate H].
Qed.

Lemma product_doc_ok_dump (p : Product) (n : N) :
  product_doc_ok (<["_id" := VOid n]> (model_dump p)) = Product_ok p.
Proof.
  unfold product_doc_ok, Product_ok.
  rewrite !lookup_insert_ne by discriminate.
  destruct (model_dump_lookup p) as (_ & _ & -> & _ & _ & _ & -> & -> & _).
  destruct (protein_grams p), (calories p); reflexivity.
Qed.

Lemma products_ok_insert_product (st : database) (p : Product) :
  products_ok (Some st) = true -> Product_ok p = true ->
  products_ok (Some (insert_one st "product" (model_dump p))) = true.
Proof.
  unfold products_ok. intros Hst Hp. rewrite collection_insert_one, forallb_app, Hst.
  simpl. rewrite product_doc_ok_dump, Hp. reflexivity.
Qed.

Lemma products_ok_fold_insert (ps : list Product) :
  forall st,
    products_ok (Some st) = true -> forallb Product_ok ps = true ->
    products_ok
      (Some (fold_left (fun st p => insert_one st "product" (model_dump p)) ps st)) = true.
Proof.
  induction ps as [|p ps IH]; intros st Hst Hps; simpl; [exact Hst|].
  simpl in Hps. apply andb_true_iff in Hps as [Hp Hps].
  apply IH; [apply products_ok_insert_product; assumption | exact Hps].
Qed.

(** X11.  No product that breaks the declared bounds gets into the store:
    if every stored product has a price, protein and calories that are not
    negative, this still holds after [POST /api/products] with any body,
    after [seed_products] and after [create_order]; a body that fails
    validation is answered 422 and nothing is written. *)
Theorem stored_products_stay_valid (db : option database) :
  products_ok db = true ->
  (forall conv body, products_ok (snd (POST_api_products conv body db)) = true)
  /\ (forall conv body,
        failed (Product_validate conv body) = true ->
        status (fst (POST_api_products conv body db)) = Some 422
        /\ snd (POST_api_products conv body db) = db)
  /\ products_ok (snd (seed_products db)) = true
  /\ (forall order, products_ok (snd (create_order order db)) = true).
Proof.
  intros Hdb. split; [|split; [|split]].
  - intros conv body. unfold POST_api_products.
    destruct (Product_validate conv body) as [errors|p] eqn:Hval; [exact Hdb|].
    destruct db as [st|]; [|reflexivity].
    rewrite create_product_ok. apply products_ok_insert_product; [exact Hdb|].
    apply (validated_product_sound conv body p Hval).
  - intros conv body. unfold POST_api_products.
    destruct (Product_validate conv body) as [errors|p]; [|discriminate].
    intros _. split; reflexivity.
  - destruct db as [st|]; [|reflexivity].
    destruct (collection st "product") as [|d docs] eqn:Hcol.
    + rewrite (seed_products_empty st Hcol).
      apply products_ok_fold_insert; [exact Hdb | reflexivity].
    + rewrite seed_products_nonempty by (rewrite Hcol; discriminate). exact Hdb.
  - intros order. destruct db as [st|]; [|reflexivity].
    rewrite create_order_ok. cbn [snd products_ok].
    rewrite collection_insert_one_ne by discriminate. exact Hdb.
Qed.

Lemma stored_products_stay_valid_witness :
  (forall conv body, products_ok (snd (POST_api_products conv body (Some whey_store))) = true)
  /\ (forall conv body,
        failed (Product_validate conv body) = true ->
        status (fst (POST_api_products conv body (Some whey_store))) = Some 422
        /\ snd (POST_api_products conv body (Some whey_store)) = Some whey_store)
  /\ products_ok (snd (seed_products (Some whey_store))) = true
  /\ (forall order, products_ok (snd (create_order order (Some whey_store))) = true).
Proof.
  apply (stored_products_stay_valid (Some whey_store)). vm_compute. reflexivity.
Defined.

(** ** Properties of the diagnostic handler *)

(** X12.  [test_database] always answers, and writes nothing.  The
    [database_url] and [database_name] of its answer tell only whether the
    two environment variables are set and not empty: what lines 40-41 put
    there from the handle never reaches the client.  The [database] entry
    is never the initial "Not Available": without a handle it is "Available
    but not initialized"; with a handle it is "Connected & Working" when
    the server lists its collections, and "Connected but Error" followed
    by the head of the message when that request raises.  At most ten
    collections are listed, all of them collections of the store, and none
    when the request raises.  Two surroundings that agree on the two
    settings, on whether the server is reached and on the messages get the
    same answer: the name of the handle plays no part. *)
Theorem test_database_answer (env : Surroundings) (db : option database) :
  exists r,
    test_database env db = (Ok r, db)
    /\ r !! "database_url"
       = Some (VStr (if env_is_set (getenv env "DATABASE_URL")
                     then "✅ Set" else "❌ Not Set"))
    /\ r !! "database_name"
       = Some (VStr (if env_is_set (getenv env "DATABASE_NAME")
                     then "✅ Set" else "❌ Not Set"))
    /\ r !! "database"
       = Some (VStr (match db, unreachable env with
                     | None, _ => "⚠️  Available but not initialized"
                     | Some _, None => "✅ Connected & Working"
                     | Some _, Some e => "⚠️  Connected but Error: " ++ message_head env e
                     end))
    /\ r !! "connection_status"
       = Some (VStr (match db with Some _ => "Connected" | None => "Not Connected" end))
    /\ (exists names,
          r !! "collections" = Some (VList (map VStr names))
          /\ (length names <= 10)%nat
          /\ forall name, In name names ->
               unreachable env = None
               /\ exists st, db = Some st /\ is_Some (collections st !! name))
    /\ forall env', same_settings env env' -> test_database env' db = (Ok r, db).
Proof.
  unfold test_database, list_collection_names. eexists. split; [reflexivity|].
  split; [|split; [|split; [|split; [|split]]]].
  - destruct db, (unreachable env); simpl;
      rewrite lookup_insert_ne by discriminate; apply lookup_insert_eq.
  - destruct db, (unreachable env); simpl; apply lookup_insert_eq.
  - destruct db, (unreachable env); simpl;
      rewrite !lookup_insert_ne by discriminate; apply lookup_insert_eq.
  - destruct db, (unreachable env); simpl;
      rewrite !lookup_insert_ne by discriminate; apply lookup_insert_eq.
  - destruct db as [st|]; [destruct (unreachable env) as [e|]|]; simpl.
    + exists []. split; [reflexivity|]. split; [simpl; lia|]. intros name [].
    + exists (take 10 (map fst (map_to_list (collections st)))).
      split; [rewrite !lookup_insert_ne by discriminate; apply lookup_insert_eq|].
      split; [rewrite length_take; lia|].
      intros name Hin. split; [reflexivity|]. exists st. split; [reflexivity|].
      apply (In_take 10), in_map_iff in Hin as ([name' docs] & <- & Hin).
      apply list_elem_of_In, elem_of_map_to_list in Hin. exists docs. exact Hin.
    + exists []. split; [reflexivity|]. split; [simpl; lia|]. intros name [].
  - intros env' (Hurl & Hname & Hreach & Hmsg). rewrite <- Hurl, <- Hname, <- Hreach.
    destruct db as [st|]; [destruct (unreachable env) as [e|]|];
      rewrite <- ?Hmsg; reflexivity.
Qed.

Lemma test_database_answer_witness :
  test_database cut_off (Some whey_store)
  = test_database {| getenv := fun _ => None; db_name := Some "shop";
                     unreachable := Some StorageUnavailable;
                     message_head := fun _ => "No servers found yet" |}
                  (Some whey_store).
Proof.
  destruct (test_database_answer cut_off (Some whey_store))
    as (r & -> & _ & _ & _ & _ & _ & Hsame).
  symmetry. apply Hsame. repeat split.
Defined.

(** ** Properties of the other models *)

Lemma both_inr {A B} (f : list finding + (A -> B)) (x : list finding + A) (y : B) :
  f <&> x = inr y -> exists f' x', f = inr f' /\ x = inr x' /\ y = f' x'.
Proof.
  destruct f as [e1|f'], x as [e2|x']; simpl; try discriminate.
  intros [= <-]. exists f', x'. repeat split.
Qed.

Lemma field_inr {T} (payload : pydict) (name : string)
    (c : value -> list finding + T) (dflt : option T) (x : T) :
  field payload name c dflt = inr x ->
  match payload !! name with
  | Some v => c v = inr x
  | None => dflt = Some x
  end.
Proof.
  unfold field. destruct (payload !! name) as [v|].
  - destruct (c v); [discriminate|]. intros [= <-]. reflexivity.
  - destruct dflt; [|discriminate]. intros [= <-]. reflexivity.
Qed.

Lemma required_field_inr {T} (payload : pydict) (name : string)
    (c : value -> list finding + T) (x : T) :
  field payload name c None = inr x -> exists v, payload !! name = Some v /\ c v = inr x.
Proof.
  intros H%field_inr. destruct (payload !! name) as [v|]; [|discriminate H].
  exists v. split; [reflexivity | exact H].
Qed.

Lemma checked_inr {T} (conv : value -> option T) (bounds : T -> option kind)
    (v : value) (x : T) :
  checked conv bounds v = inr x -> conv v = Some x /\ bounds x = None.
Proof.
  unfold checked. destruct (conv v) as [y|]; [|discriminate].
  destruct (bounds y) eqn:Hy; [discriminate|]. intros [= <-]. split; [reflexivity | exact Hy].
Qed.

Lemma or_none_inr {T} (c : value -> list finding + T) (v : value) (o : option T) :
  or_none c v = inr o -> o = None \/ exists x, o = Some x /\ c v = inr x.
Proof.
  unfold or_none.
  destruct v; try (intros [= <-]; left; reflexivity);
    match goal with |- context [c ?w] => destruct (c w) as [fs|y] eqn:Hc end;
    try discriminate; intros [= <-]; right; exists y; split; reflexivity.
Qed.

Lemma int_bounds_ok (lo hi : Z) (n : Z) :
  int_bounds (Some lo) (Some hi) n = None -> (lo <=? n) && (n <=? hi) = true.
Proof.
  unfold int_bounds. destruct (lo <=? n); [|discriminate].
  destruct (n <=? hi); [reflexivity | discriminate].
Qed.

Lemma int_lower_ok (lo : Z) (n : Z) :
  int_bounds (Some lo) None n = None -> (lo <=? n) = true.
Proof. unfold int_bounds. destruct (lo <=? n); [reflexivity | discriminate]. Qed.

Lemma float_ge_ok (x : Q) : float_ge 0 x = None -> Qle_bool 0 x = true.
Proof.
  unfold float_ge. change (inject_Z 0) with 0%Q. destruct (Qle_bool 0 x); [reflexivity | discriminate].
Qed.

(** X13.  Whatever the conversion table, a payload that validates as a
    [User] has a name, an email and an address; the age of the user, when
    there is one, lies between 0 and 120; and a user without [age] or
    [is_active] in the payload has no age and is active. *)
Theorem validated_user_is_sound (conv : Conversions) (payload : pydict) (u : User.t) :
  User_validate conv payload = inr u ->
  User_ok u = true
  /\ (is_Some (payload !! "name") /\ is_Some (payload !! "email")
      /\ is_Some (payload !! "address"))
  /\ (payload !! "age" = None -> User.age u = None)
  /\ (payload !! "is_active" = None -> User.is_active u = true).
Proof.
  unfold User_validate. intros H.
  apply both_inr in H as (f5 & x5 & H & H5 & ->).
  apply both_inr in H as (f4 & x4 & H & H4 & ->).
  apply both_inr in H as (f3 & x3 & H & H3 & ->).
  apply both_inr in H as (f2 & x2 & H & H2 & ->).
  apply both_inr in H as (f1 & x1 & H & H1 & ->).
  injection H as <-. cbn [User.age User.is_active].
  apply required_field_inr in H1 as (v1 & -> & _), H2 as (v2 & -> & _), H3 as (v3 & -> & _).
  apply field_inr in H4, H5.
  split; [|split; [repeat split; eexists; reflexivity|split]].
  - unfold User_ok. cbn [User.age].
    destruct (payload !! "age") as [v|]; [|injection H4 as <-; reflexivity].
    apply or_none_inr in H4 as [-> | (a & -> & Ha)]; [reflexivity|].
    apply checked_inr in Ha as [_ Ha]. apply int_bounds_ok, Ha.
  - intros Hnone. rewrite Hnone in H4. congruence.
  - intros Hnone. rewrite Hnone in H5. congruence.
Qed.

Lemma validated_user_is_sound_witness :
  User_ok ann = true
  /\ (is_Some (ann_payload !! "name") /\ is_Some (ann_payload !! "email")
      /\ is_Some (ann_payload !! "address"))
  /\ (ann_payload !! "age" = None -> User.age ann = None)
  /\ (ann_payload !! "is_active" = None -> User.is_active ann = true).
Proof.
  apply (validated_user_is_sound strict ann_payload ann). vm_compute. reflexivity.
Defined.

(** X14.  Dumping a user and validating the dump, with the conversions
    that accept exactly the declared types, gives the user back when there
    is no age or the age lies between 0 and 120; a negative age is reported
    at [age] as below the bound, an age above 120 as above it. *)
Theorem User_dump_validate_roundtrip (u : User.t) :
  User_validate strict (User_dump u)
  = match User.age u with
    | Some a =>
        if a <? 0 then inl [([Key "age"], k_greater_than_equal)]
        else if 120 <? a then inl [([Key "age"], k_less_than_equal)]
        else inr u
    | None => inr u
    end.
Proof.
  destruct u as [n e a [g|] act]; cbn [User.age].
  - unfold User_validate, User_dump, field; cbn [User.name User.email User.address
      User.age User.is_active opt_value].
    rewrite lookup_insert_eq.
    rewrite (lookup_insert_ne _ "name" "email"), lookup_insert_eq by discriminate.
    rewrite !(lookup_insert_ne _ _ "address"), lookup_insert_eq by discriminate.
    rewrite !(lookup_insert_ne _ _ "age"), lookup_insert_eq by discriminate.
    rewrite !(lookup_insert_ne _ _ "is_active"), lookup_insert_eq by discriminate.
    cbn [or_none checked strict to_str to_int to_bool no_bounds both]. unfold int_bounds.
    destruct (Z.leb_spec 0 g), (Z.ltb_spec g 0); try lia;
      destruct (Z.leb_spec g 120), (Z.ltb_spec 120 g); try lia; reflexivity.
  - reflexivity.
Qed.

Lemma nested_inr {T} (validate : pydict -> list finding + T) (v : value) (x : T) :
  nested validate v = inr x -> exists d, v = VDict d /\ validate (dict_of d) = inr x.
Proof.
  destruct v; try discriminate. intros H. eexists. split; [reflexivity | exact H].
Qed.

Lemma each_from_inr {T} (c : value -> list finding + T) (l : list value) :
  forall i xs, each_from c i l = inr xs -> Forall2 (fun v x => c v = inr x) l xs.
Proof.
  induction l as [|v l IH]; intros i xs; simpl.
  - intros [= <-]. constructor.
  - destruct (c v) as [fs|x] eqn:Hv; destruct (each_from c (S i) l) as [fs'|xs'] eqn:Hl;
      try discriminate.
    intros [= <-]. constructor; [exact Hv | apply (IH (S i)), Hl].
Qed.

Lemma OrderItem_validate_sound (conv : Conversions) (payload : pydict) (it : OrderItem.t) :
  OrderItem_validate conv payload = inr it -> OrderItem_ok it = true.
Proof.
  unfold OrderItem_validate. intros H.
  apply both_inr in H as (f4 & x4 & H & H4 & ->).
  apply both_inr in H as (f3 & x3 & H & H3 & ->).
  apply both_inr in H as (f2 & x2 & H & H2 & ->).
  apply both_inr in H as (f1 & x1 & H & H1 & ->).
  injection H as <-. unfold OrderItem_ok. cbn [OrderItem.price OrderItem.quantity].
  apply required_field_inr in H3 as (v3 & _ & [_ H3]%checked_inr).
  apply required_field_inr in H4 as (v4 & _ & [_ H4]%checked_inr).
  rewrite (float_ge_ok _ H3), (int_lower_ok _ _ H4). reflexivity.
Qed.

Lemma Order_validate_facts (conv : Conversions) (payload : pydict) (o : Order.t) :
  Order_validate conv payload = inr o ->
  Order_ok o = true
  /\ Forall (fun name => is_Some (payload !! name))
       ["customer_name"; "customer_email"; "customer_address"; "items"; "subtotal"; "tax";
        "total"]
  /\ (payload !! "status" = None -> Order.status o = "pending").
Proof.
  unfold Order_validate. intros H.
  apply both_inr in H as (f8 & x8 & H & H8 & ->).
  apply both_inr in H as (f7 & x7 & H & H7 & ->).
  apply both_inr in H as (f6 & x6 & H & H6 & ->).
  apply both_inr in H as (f5 & x5 & H & H5 & ->).
  apply both_inr in H as (f4 & x4 & H & H4 & ->).
  apply both_inr in H as (f3 & x3 & H & H3 & ->).
  apply both_inr in H as (f2 & x2 & H & H2 & ->).
  apply both_inr in H as (f1 & x1 & H & H1 & ->).
  injection H as <-.
  apply required_field_inr in H1 as (v1 & E1 & _), H2 as (v2 & E2 & _),
    H3 as (v3 & E3 & _), H4 as (v4 & E4 & H4), H5 as (v5 & E5 & [_ H5]%checked_inr),
    H6 as (v6 & E6 & [_ H6]%checked_inr), H7 as (v7 & E7 & [_ H7]%checked_inr).
  split; [|split].
  - unfold Order_ok. cbn [Order.items Order.subtotal Order.tax Order.total].
    rewrite (float_ge_ok _ H5), (float_ge_ok _ H6), (float_ge_ok _ H7), !andb_true_r.
    unfold list_with in H4. destruct (to_list conv v4) as [l|]; [|discriminate H4].
    apply each_from_inr in H4. apply forallb_forall. intros it Hit.
    induction H4 as [|v it' l its Hv _ IH]; [destruct Hit|].
    destruct Hit as [<- | Hit]; [|apply IH, Hit].
    apply nested_inr in Hv as (d & _ & Hv). apply (OrderItem_validate_sound conv _ _ Hv).
  - repeat (constructor; [cbv beta; eexists; eassumption|]). constructor.
  - intros Hnone. apply field_inr in H8. rewrite Hnone in H8. cbn. congruence.
Qed.

(** X15.  Whatever the conversion table, a payload that validates as an
    [Order] has the seven required fields; subtotal, tax and total are not
    negative; every item has a price that is not negative and a quantity
    of at least 1; and without [status] in the payload the order is
    ["pending"]. *)
Theorem validated_order_is_sound (conv : Conversions) (payload : pydict) (o : Order.t) :
  Order_validate conv payload = inr o ->
  Order_ok o = true
  /\ Forall (fun name => is_Some (payload !! name))
       ["customer_name"; "customer_email"; "customer_address"; "items"; "subtotal"; "tax";
        "total"]
  /\ (payload !! "status" = None -> Order.status o = "pending").
Proof. exact (Order_validate_facts conv payload o). Qed.

Lemma validated_order_is_sound_witness :
  Order_ok ann_order = true
  /\ Forall (fun name => is_Some (order_payload !! name))
       ["customer_name"; "customer_email"; "customer_address"; "items"; "subtotal"; "tax";
        "total"]
  /\ (order_payload !! "status" = None -> Order.status ann_order = "pending").
Proof.
  apply (validated_order_is_sound strict order_payload ann_order). vm_compute. reflexivity.
Defined.

Lemma OrderItem_dump_lookup (it : OrderItem.t) :
  dict_of (OrderItem_dump it) !! "product_id" = Some (VStr (OrderItem.product_id it))
  /\ dict_of (OrderItem_dump it) !! "title" = Some (VStr (OrderItem.title it))
  /\ dict_of (OrderItem_dump it) !! "price" = Some (VFloat (OrderItem.price it))
  /\ dict_of (OrderItem_dump it) !! "quantity" = Some (VInt (OrderItem.quantity it)).
Proof. repeat split; reflexivity. Qed.

Lemma OrderItem_dump_validate (it : OrderItem.t) :
  if OrderItem_ok it
  then OrderItem_validate strict (dict_of (OrderItem_dump it)) = inr it
  else rejected (OrderItem_validate strict (dict_of (OrderItem_dump it))) = true.
Proof.
  unfold OrderItem_validate, field, OrderItem_ok.
  destruct (OrderItem_dump_lookup it) as (-> & -> & -> & ->).
  destruct it as [pid t pr qty]. cbn [OrderItem.price OrderItem.quantity].
  cbn [checked strict to_str to_float to_int no_bounds]. unfold float_ge, int_bounds.
  change (inject_Z 0) with 0%Q.
  destruct (Qle_bool 0 pr), (1 <=? qty); reflexivity.
Qed.

Lemma each_from_dumped_items (l : list OrderItem.t) :
  forall i,
    if forallb OrderItem_ok l
    then each_from (nested (OrderItem_validate strict)) i
           (map (fun it => VDict (OrderItem_dump it)) l) = inr l
    else rejected (each_from (nested (OrderItem_validate strict)) i
                     (map (fun it => VDict (OrderItem_dump it)) l)) = true.
Proof.
  induction l as [|it l IH]; intros i; [reflexivity|].
  cbn [forallb map each_from nested]. specialize (IH (S i)).
  pose proof (OrderItem_dump_validate it) as Hit.
  destruct (OrderItem_ok it); cbn [andb].
  - rewrite Hit. destruct (forallb OrderItem_ok l).
    + rewrite IH. reflexivity.
    + destruct (each_from _ (S i) _); [reflexivity | discriminate IH].
  - destruct (OrderItem_validate strict (dict_of (OrderItem_dump it))); [|discriminate Hit].
    destruct (each_from _ (S i) _); reflexivity.
Qed.

Lemma Order_dump_lookup (o : Order.t) :
  Order_dump o !! "customer_name" = Some (VStr (Order.customer_name o))
  /\ Order_dump o !! "customer_email" = Some (VStr (Order.customer_email o))
  /\ Order_dump o !! "customer_address" = Some (VStr (Order.customer_address o))
  /\ Order_dump o !! "items"
     = Some (VList (map (fun i => VDict (OrderItem_dump i)) (Order.items o)))
  /\ Order_dump o !! "subtotal" = Some (VFloat (Order.subtotal o))
  /\ Order_dump o !! "tax" = Some (VFloat (Order.tax o))
  /\ Order_dump o !! "total" = Some (VFloat (Order.total o))
  /\ Order_dump o !! "status" = Some (VStr (Order.status o)).
Proof. repeat split; reflexivity. Qed.

(** X16.  Dumping an order and validating the dump, with the conversions
    that accept exactly the declared types, gives the order back when its
    amounts are not negative and every item has a price that is not negative
    and a quantity of at least 1, and fails otherwise; an order without
    items is accepted, and so is one whose total is not the sum of its
    subtotal and tax. *)
Theorem Order_dump_validate_roundtrip (o : Order.t) :
  if Order_ok o
  then Order_validate strict (Order_dump o) = inr o
  else rejected (Order_validate strict (Order_dump o)) = true.
Proof.
  unfold Order_validate, field, Order_ok.
  destruct (Order_dump_lookup o) as (-> & -> & -> & -> & -> & -> & -> & ->).
  destruct o as [cn ce ca its sub tx tot st].
  cbn [Order.items Order.subtotal Order.tax Order.total Order.customer_name
       Order.customer_email Order.customer_address Order.status].
  cbn [checked strict to_str to_float to_list list_with no_bounds]. unfold float_ge.
  change (inject_Z 0) with 0%Q.
  pose proof (each_from_dumped_items its 0%nat) as Hits.
  destruct (forallb OrderItem_ok its).
  - rewrite Hits. destruct (Qle_bool 0 sub), (Qle_bool 0 tx), (Qle_bool 0 tot); reflexivity.
  - destruct (each_from _ 0%nat _); [|discriminate Hits].
    destruct (Qle_bool 0 sub), (Qle_bool 0 tx), (Qle_bool 0 tot); reflexivity.
Qed.

(** ** Orders and the product endpoints *)

Lemma for_each_pure {A B} (f : A -> M B) (l : list A) :
  (forall x, exists o, forall db, f x db = (o, db)) ->
  exists o, forall db, for_each f l db = (o, db).
Proof.
  intros Hf. induction l as [|x l [ol IH]].
  - eexists. intros db. reflexivity.
  - destruct (Hf x) as [ox Hx].
    exists (match ox with
            | Ok y => match ol with
                      | Ok ys => Ok (y :: ys)
                      | Raise e => Raise e
                      | Unmodelled => Unmodelled
                      end
            | Raise e => Raise e
            | Unmodelled => Unmodelled
            end).
    intros db. cbn [for_each]. unfold bind at 1. rewrite Hx.
    destruct ox; try reflexivity. unfold bind. rewrite IH. destruct ol; reflexivity.
Qed.

Lemma convert_step_pure (d : pydict) :
  exists o, forall db,
    (if truthy (default VNone (d !! "_id")) then convert_id d else ret d) db = (o, db).
Proof.
  destruct (truthy (default VNone (d !! "_id"))); [|eexists; intros; reflexivity].
  unfold convert_id, bind, lift, dict_pop.
  destruct (d !! "_id") as [v|]; [|eexists; intros; reflexivity].
  cbn [fst snd]. destruct (py_str v); eexists; intros; reflexivity.
Qed.

(** What the product endpoints answer depends on the product collection
    only. *)
Lemma product_endpoints_read_products (st st' : database) :
  collection st "product" = collection st' "product" ->
  (forall category q limit,
      fst (list_products category q limit (Some st))
      = fst (list_products category q limit (Some st')))
  /\ (forall product_id,
        fst (get_product product_id (Some st)) = fst (get_product product_id (Some st'))).
Proof.
  intros Hcol. split.
  - intros category q limit. unfold list_products, try_except. unfold bind at 1 3.
    unfold get_documents. rewrite Hcol.
    destruct (compile_filter _) as [p|]; [|reflexivity].
    destruct (for_each_pure
                (fun d => if truthy (default VNone (d !! "_id")) then convert_id d else ret d)
                (take (Z.to_nat limit) (List.filter p (collection st' "product")))
                convert_step_pure) as [o Ho].
    unfold bind. rewrite !Ho. destruct o; reflexivity.
  - intros product_id. unfold get_product, try_except, bind, lift, get_documents.
    destruct (ObjectId product_id) as [n| |]; try reflexivity. rewrite Hcol.
    cbn [compile_filter compile_clause compile_fcond pred_and].
    destruct (take (Z.to_nat 1) _) as [|d docs]; [reflexivity|].
    unfold convert_id, bind, lift, dict_pop.
    destruct (d !! "_id") as [v|]; [|reflexivity].
    cbn [fst snd]. destruct (py_str v); reflexivity.
Qed.

(** X17.  [create_order] on a connected store answers with the next
    identifier and appends the order, as dumped, to the [order] collection;
    the product collection is untouched, so [list_products] and
    [get_product] answer after it exactly what they answered before. *)
Theorem create_order_leaves_products (order : Order.t) (st : database) :
  exists st',
    create_order order (Some st)
    = (Ok {[ "id" := VStr (ObjectId_str (next_oid st)) ]}, Some st')
    /\ collection st' "order"
       = (collection st "order" ++ [<["_id" := VOid (next_oid st)]> (Order_dump order)])%list
    /\ collection st' "product" = collection st "product"
    /\ (forall category q limit,
          fst (list_products category q limit (Some st'))
          = fst (list_products category q limit (Some st)))
    /\ (forall product_id,
          fst (get_product product_id (Some st')) = fst (get_product product_id (Some st))).
Proof.
  exists (insert_one st "order" (Order_dump order)).
  split; [apply create_order_ok|]. split; [apply collection_insert_one|].
  assert (Hcol : collection (insert_one st "order" (Order_dump order)) "product"
                 = collection st "product")
    by (apply collection_insert_one_ne; discriminate).
  split; [exact Hcol|]. exact (product_endpoints_read_products _ _ Hcol).
Qed.

(** ** The report on the items of an order *)

Lemma findings_of_both {A B} (f : list finding + (A -> B)) (x : list finding + A) :
  findings_of (f <&> x) = (findings_of f ++ findings_of x)%list.
Proof. destruct f, x; simpl; rewrite ?app_nil_r; reflexivity. Qed.

Lemma reports_both {A B} (f : list finding + (A -> B)) (x : list finding + A) :
  reports f -> reports x -> reports (f <&> x).
Proof.
  destruct f as [e1|f], x as [e2|x]; simpl; try tauto.
  intros H1 _ Happ. apply app_eq_nil in Happ. tauto.
Qed.

Lemma reports_checked {T} (conv : value -> option T) (bounds : T -> option kind) (v : value) :
  reports (checked conv bounds v).
Proof.
  unfold checked. destruct (conv v) as [x|]; [|discriminate].
  destruct (bounds x); [discriminate | exact I].
Qed.

Lemma reports_field {T} (payload : pydict) (name : string)
    (c : value -> list finding + T) (dflt : option T) :
  (forall v, reports (c v)) -> reports (field payload name c dflt).
Proof.
  intros Hc. unfold field. destruct (payload !! name) as [v|].
  - specialize (Hc v). destruct (c v) as [fs|x]; [|exact I].
    simpl in *. destruct fs; [tauto | discriminate].
  - destruct dflt; [exact I | discriminate].
Qed.

Lemma reports_OrderItem_validate (conv : Conversions) (payload : pydict) :
  reports (OrderItem_validate conv payload).
Proof.
  unfold OrderItem_validate.
  repeat (apply reports_both; [|apply reports_field; intros; apply reports_checked]).
  exact I.
Qed.

Lemma reports_nested {T} (validate : pydict -> list finding + T) (v : value) :
  (forall d, reports (validate d)) -> reports (nested validate v).
Proof. intros Hv. destruct v; try discriminate. apply Hv. Qed.

Lemma In_under (l : loc_item) (fs : list finding) (f : finding) :
  In f (under l fs) <-> exists f0, In f0 fs /\ f = (l :: fst f0, snd f0).
Proof.
  unfold under. rewrite in_map_iff. split; intros (f0 & H1 & H2); exists f0; auto.
Qed.

(** The findings about a list are exactly the findings about its failing
    items, each under the index of its item. *)
Lemma each_from_findings {T} (c : value -> list finding + T) (l : list value) :
  forall i f,
    In f (findings_of (each_from c i l))
    <-> exists j v f0,
          nth_error l j = Some v /\ In f0 (findings_of (c v))
          /\ f = (Index (i + j) :: fst f0, snd f0).
Proof.
  induction l as [|v l IH]; intros i f.
  - simpl. split; [tauto|]. intros (j & w & f0 & Hj & _). destruct j; discriminate Hj.
  - assert (Hsplit : In f (findings_of (each_from c i (v :: l)))
                     <-> In f (under (Index i) (findings_of (c v)))
                         \/ In f (findings_of (each_from c (S i) l))).
    { cbn [each_from]. destruct (c v) as [fs|x], (each_from c (S i) l) as [fs'|xs]; simpl;
        rewrite ?in_app_iff; tauto. }
    rewrite Hsplit, In_under, IH. split.
    + intros [(f0 & Hf0 & ->) | (j & w & f0 & Hj & Hf0 & ->)].
      * exists 0%nat, v, f0. rewrite Nat.add_0_r. repeat split. exact Hf0.
      * exists (S j), w, f0. rewrite Nat.add_succ_r. repeat split; assumption.
    + intros (j & w & f0 & Hj & Hf0 & ->). destruct j as [|j].
      * left. injection Hj as <-. exists f0. rewrite Nat.add_0_r. split; [exact Hf0 | reflexivity].
      * right. exists j, w, f0. rewrite Nat.add_succ_r. repeat split; assumption.
Qed.

Lemma field_findings {T} (payload : pydict) (name : string)
    (c : value -> list finding + T) (dflt : option T) (f : finding) :
  In f (findings_of (field payload name c dflt)) ->
  exists path, fst f = Key name :: path.
Proof.
  unfold field. destruct (payload !! name) as [v|].
  - destruct (c v) as [fs|x]; [|intros []]. simpl.
    intros (f0 & _ & ->)%In_under. eexists. reflexivity.
  - destruct dflt; [intros []|]. simpl. intros [<- | []]. eexists. reflexivity.
Qed.

(** X18.  When an order fails validation, the report locates the items
    at fault: item [j] of the list under [items] fails to validate as an
    [OrderItem] exactly when the report has a finding under
    [items], [j]. *)
Theorem order_report_locates_items (conv : Conversions) (payload : pydict)
    (v : value) (l : list value) (j : nat) (item : value) :
  payload !! "items" = Some v ->
  to_list conv v = Some l ->
  nth_error l j = Some item ->
  rejected (nested (OrderItem_validate conv) item) = true
  <-> exists path k,
        In (Key "items" :: Index j :: path, k) (findings_of (Order_validate conv payload)).
Proof.
  intros Hitems Hlist Hj.
  assert (Hfield : findings_of (field payload "items"
                      (list_with (to_list conv) (nested (OrderItem_validate conv))) None)
                   = under (Key "items")
                       (findings_of (each_from (nested (OrderItem_validate conv)) 0 l))).
  { unfold field, list_with. rewrite Hitems, Hlist.
    destruct (each_from _ 0 l); reflexivity. }
  assert (Hin : forall f,
             In f (findings_of (Order_validate conv payload))
             -> (exists path, fst f = Key "items" :: path)
             -> In f (under (Key "items")
                        (findings_of (each_from (nested (OrderItem_validate conv)) 0 l)))).
  { intros f. unfold Order_validate. rewrite !findings_of_both, !in_app_iff, Hfield.
    intros Hf [path Hpath].
    repeat (destruct Hf as [Hf | Hf]); try exact Hf; try (destruct Hf);
      apply field_findings in Hf as [path' Hf]; rewrite Hf in Hpath; discriminate Hpath. }
  assert (Hback : forall f,
             In f (under (Key "items")
                     (findings_of (each_from (nested (OrderItem_validate conv)) 0 l)))
             -> In f (findings_of (Order_validate conv payload))).
  { intros f Hf. unfold Order_validate. rewrite !findings_of_both, !in_app_iff, Hfield.
    tauto. }
  split.
  - intros Hrej.
    pose proof (reports_nested (OrderItem_validate conv) item
                  (reports_OrderItem_validate conv)) as Hrep.
    destruct (nested (OrderItem_validate conv) item) as [fs|x] eqn:Hitem; [|discriminate].
    destruct fs as [|f0 fs]; [simpl in Hrep; tauto|].
    exists (fst f0), (snd f0). apply Hback, In_under.
    exists (Index j :: fst f0, snd f0). split; [|reflexivity].
    apply each_from_findings. exists j, item, f0.
    rewrite Hitem. repeat split; [exact Hj | left; reflexivity].
  - intros (path & k & Hf). apply Hin in Hf; [|eexists; reflexivity].
    apply In_under in Hf as (f1 & Hf1 & Heq). injection Heq as Hpath Hk.
    apply each_from_findings in Hf1 as (j' & w & f0 & Hj' & Hf0 & ->).
    simpl in Hpath. injection Hpath as -> _. rewrite Hj in Hj'. injection Hj' as <-.
    destruct (nested (OrderItem_validate conv) item); [reflexivity | destruct Hf0].
Qed.

Lemma order_report_locates_items_witness :
  rejected (nested (OrderItem_validate strict)
              (VDict [("product_id", VStr "p"); ("title", VStr "t");
                      ("price", VInt 1); ("quantity", VInt 0)])) = true
  <-> exists path k,
        In (Key "items" :: Index 1 :: path, k)
           (findings_of (Order_validate strict bad_order_payload)).
Proof.
  apply (order_report_locates_items strict bad_order_payload
           (VList [VDict [("product_id", VStr "p"); ("title", VStr "t");
                          ("price", VInt 1); ("quantity", VInt 1)];
                   VDict [("product_id", VStr "p"); ("title", VStr "t");
                          ("price", VInt 1); ("quantity", VInt 0)]])
           [VDict [("product_id", VStr "p"); ("title", VStr "t");
                   ("price", VInt 1); ("quantity", VInt 1)];
            VDict [("product_id", VStr "p"); ("title", VStr "t");
                   ("price", VInt 1); ("quantity", VInt 0)]]
           1%nat); reflexivity.
Defined.

(** ** Malformed identifiers and the category filter *)

(** X19.  An identifier that is not 24 characters long, or holds a
    character that is neither a hexadecimal digit nor whitespace, is
    answered 500 with the decoder's error, and the store is neither
    consulted nor changed: the answer is the same without a connection. *)
Theorem malformed_identifier_is_answered_500 (product_id : string) (db : option database) :
  String.length product_id <> 24%nat
  \/ (exists c, In c (list_ascii_of_string product_id)
                /\ is_hex c = false /\ is_space c = false) ->
  get_product product_id db
  = (Raise (HTTPException 500 (Str (InvalidId product_id))), db)
  /\ get_product product_id None
     = (Raise (HTTPException 500 (Str (InvalidId product_id))), None).
Proof.
  intros Hbad.
  assert (Hmal : malformed product_id = true).
  { unfold malformed. apply orb_true_iff. destruct Hbad as [Hlen | Hbad].
    - left. apply negb_true_iff, Nat.eqb_neq, Hlen.
    - right. unfold fromhex. rewrite (fromhex_from_bad _ Hbad). reflexivity. }
  split; apply get_product_malformed, Hmal.
Qed.

Lemma malformed_identifier_is_answered_500_witness :
  get_product "0000000000000000000000zz" (Some whey_store)
  = (Raise (HTTPException 500 (Str (InvalidId "0000000000000000000000zz"))),
     Some whey_store)
  /\ get_product "0000000000000000000000zz" None
     = (Raise (HTTPException 500 (Str (InvalidId "0000000000000000000000zz"))), None).
Proof.
  apply (malformed_identifier_is_answered_500 "0000000000000000000000zz" (Some whey_store)).
  right. exists "z"%char. split; [|split; reflexivity].
  vm_compute. tauto.
Defined.

Lemma with_id_other_key (d : pydict) (key : string) :
  key <> "id" -> key <> "_id" -> with_id d !! key = d !! key.
Proof.
  intros H1 H2. unfold with_id. destruct (doc_id d); [|reflexivity].
  rewrite lookup_insert_ne by congruence. apply lookup_delete_ne. congruence.
Qed.

(** X20.  A listing by category alone returns only products of that
    category, and, when the limit is not below the number of products, all
    of them. *)
Theorem category_filter_selects_category (st : database) (c : string) (limit : Z) :
  c <> "" ->
  ids_ok st = true ->
  exists r,
    list_products (Some c) None limit (Some st) = (Ok r, Some st)
    /\ (forall item, In item (items r) -> field_eq (VStr c) (item !! "category") = true)
    /\ (Z.of_nat (length (collection st "product")) <= limit ->
        forall d,
          In d (collection st "product") ->
          d !! "category" = Some (VStr c) ->
          In (with_id d) (items r)).
Proof.
  intros Hc%truthy_str Hok.
  assert (Hp : compile_filter (product_filter (Some c) None)
               = Some (fun d => field_eq (VStr c) (d !! "category") && true)).
  { unfold product_filter. rewrite Hc. reflexivity. }
  eexists. split; [apply (list_products_connected st _ _ limit _ Hok Hp)|].
  cbn [items]. split.
  - intros item (d & <- & Hd%In_take%filter_In)%in_map_iff. destruct Hd as [_ Hd].
    rewrite with_id_other_key by discriminate. rewrite andb_true_r in Hd. exact Hd.
  - intros Hlimit d Hd Hcat. apply in_map.
    rewrite take_ge.
    + apply filter_In. split; [exact Hd|]. rewrite Hcat. simpl.
      rewrite String.eqb_refl. reflexivity.
    + pose proof (List.filter_length_le
                    (fun d => field_eq (VStr c) (d !! "category") && true)
                    (collection st "product")). lia.
Qed.

Lemma category_filter_selects_category_witness :
  exists r,
    list_products (Some "powder") None 50 (Some seeded_store) = (Ok r, Some seeded_store)
    /\ (forall item, In item (items r) -> field_eq (VStr "powder") (item !! "category") = true)
    /\ (Z.of_nat (length (collection seeded_store "product")) <= 50 ->
        forall d,
          In d (collection seeded_store "product") ->
          d !! "category" = Some (VStr "powder") ->
          In (with_id d) (items r)).
Proof.
  apply (category_filter_selects_category seeded_store "powder" 50).
  - discriminate.
  - vm_compute. reflexivity.
Defined.
